(** * Horizontal bar chart visual: view-model builder, layout and selection

    A shallow embedding of [src/barChart.ts] (the selection-synchronised
    version of the visual): the view-model builder [visualTransform] with its
    helpers [getOverlapIndex], [getDataValueForOverlapValue],
    [getMetadataIndexFor] and [getIndexForDataMax], the geometry part of
    [BarChart.update], [BarChart.enumerateObjectInstances] and
    [BarChart.syncSelectionState].

    Conventions of the embedding.
    - A JavaScript number is an element of [JS.number]: a rational, one of
      the two infinities, or NaN.  Comparison and [Math.max] never round, so
      they are exact on this model; [+0] and [-0] are identified.
    - Viewport and layout quantities are finite numbers and live in [Q];
      arithmetic on them is exact rational arithmetic, where the runtime
      rounds every operation to the nearest double: a quantity computed
      here can differ from the runtime's in the last place, and its
      [Math.floor] by one where it falls on a whole number.
    - A property access on [undefined] raises a [TypeError]; fallible code
      returns a [JS.result].
    - An optional property of the host's data view is an [option]; where
      the source uses one property name in several objects ([show],
      [values], [source]) the record field carries a short prefix.
    - Host services, the formatting utilities and the object-enumeration
      utility are not in the sources at hand: the builder takes them as a
      [Host] record of functions, so a call into them returns.  What is
      said of a raise is said of the property reads of the visual's own
      code; a raise inside a utility is outside the model. *)

From Stdlib Require Import QArith Qround Qminmax Lqa ZArith Lia.
From stdpp Require Import base option list strings gmap.

Local Open Scope string_scope.

(** ** JavaScript values *)

Module JS.

Inductive number : Type :=
| NaN
| NegInfinity
| Finite (q : Q)
| PosInfinity.

(** [a <= b] on numbers. *)
Definition le (a b : number) : bool :=
  match a, b with
  | NaN, _ | _, NaN => false
  | NegInfinity, _ => true
  | _, PosInfinity => true
  | Finite x, Finite y => Qle_bool x y
  | _, _ => false
  end.

(** [a < b] on numbers. *)
Definition lt (a b : number) : bool :=
  match a, b with
  | NaN, _ | _, NaN => false
  | NegInfinity, NegInfinity => false
  | NegInfinity, _ => true
  | PosInfinity, _ => false
  | Finite x, Finite y => negb (Qle_bool y x)
  | Finite _, PosInfinity => true
  | Finite _, NegInfinity => false
  end.

(** [a > b] on numbers. *)
Definition gt (a b : number) : bool := lt b a.

Definition isNaN (a : number) : bool :=
  match a with NaN => true | _ => false end.

(** The loop of [Math.max]: [highest] starts at [-Infinity]; a NaN
    argument makes the result NaN. *)
Fixpoint max_loop (highest : number) (xs : list number) : number :=
  match xs with
  | [] => highest
  | x :: rest =>
      if isNaN x then NaN
      else max_loop (if gt x highest then x else highest) rest
  end.

Inductive PrimitiveValue : Type :=
| PUndefined
| PNull
| PBoolean (b : bool)
| PNumber (n : number)
| PString (s : string).

(** The two conversions of the runtime that are not modelled: parsing a
    string as a number and printing a number. *)
Record Runtime : Type := {
  StringToNumber : string -> number;
  NumberToString : number -> string;
}.

Definition ToNumber (rt : Runtime) (v : PrimitiveValue) : number :=
  match v with
  | PUndefined => NaN
  | PNull => Finite 0
  | PBoolean true => Finite 1
  | PBoolean false => Finite 0
  | PNumber n => n
  | PString s => StringToNumber rt s
  end.

(** [v + ""]. *)
Definition ToString (rt : Runtime) (v : PrimitiveValue) : string :=
  match v with
  | PUndefined => "undefined"
  | PNull => "null"
  | PBoolean true => "true"
  | PBoolean false => "false"
  | PNumber n => NumberToString rt n
  | PString s => s
  end.

(** [Math.max.apply(Math, arr)]. *)
Definition Math_max (rt : Runtime) (arr : list PrimitiveValue) : number :=
  max_loop NegInfinity (map (ToNumber rt) arr).

(** [a <= b] on values: two strings compare as strings, anything else
    as numbers. *)
Definition value_le (rt : Runtime) (a b : PrimitiveValue) : bool :=
  match a, b with
  | PString s, PString t => String.leb s t
  | _, _ => le (ToNumber rt a) (ToNumber rt b)
  end.


(** Outcome of a computation that may raise. *)
Inductive result (A : Type) : Type :=
| Ok (a : A)
| TypeError.
Arguments Ok {A} a.
Arguments TypeError {A}.

Definition bind {A B} (r : result A) (k : A -> result B) : result B :=
  match r with
  | Ok a => k a
  | TypeError => TypeError
  end.

(** Reading a property of [o]: raises when [o] is [undefined]. *)
Definition deref {A} (o : option A) : result A :=
  match o with
  | Some a => Ok a
  | None => TypeError
  end.

End JS.

#[global] Instance result_ret : MRet JS.result := @JS.Ok.
#[global] Instance result_bind : MBind JS.result := fun A B k r => JS.bind r k.

Import JS.

(** [arr[i]] on an array of values: [undefined] past the end. *)
Definition array_get (arr : list PrimitiveValue) (i : nat) : PrimitiveValue :=
  default PUndefined (arr !! i).

(** ** The data view supplied by the host *)

(** [DataViewMetadataColumn]; [roles] maps a role name to a flag, and
    [hasOwnProperty] only asks whether the name is a key.  The host gives
    every queried column its roles and its index. *)
Record DataViewMetadataColumn : Type := {
  col_displayName : string;
  col_index : Z;
  col_roles : gmap string bool;
  col_format : option string;
}.

(** A value of a formatting object, as stored by the host. *)
Record Fill : Type := { solid_color : string }.

Inductive PropertyValue : Type :=
| VBoolean (b : bool)
| VNumber (q : Q)
| VText (s : string)
| VFill (f : Fill).

Record DataViewMetadata : Type := {
  md_columns : list DataViewMetadataColumn;
  md_objects : option (gmap string (gmap string PropertyValue));
}.

Record DataViewCategoryColumn : Type := {
  cat_source : option DataViewMetadataColumn;
  cat_values : list PrimitiveValue;
}.

Record DataViewValueColumn : Type := {
  val_source : DataViewMetadataColumn;
  val_values : list PrimitiveValue;
  val_maxLocal : PrimitiveValue;
}.

Record DataViewCategorical : Type := {
  categories : option (list DataViewCategoryColumn);
  values : option (list DataViewValueColumn);
}.

Record DataView : Type := {
  categorical : option DataViewCategorical;
  metadata : DataViewMetadata;
}.

Record Viewport : Type := { vp_width : Q; vp_height : Q }.

Record VisualUpdateOptions : Type := {
  dataViews : option (list DataView);
  viewport : Viewport;
}.

(** ** Settings *)

Record GeneralView : Type := {
  gv_minHeight : Q;
  gv_barHeight : Q;
  gv_opacity : Q;
  gv_barsColor : Fill;
  gv_overlapColor : Fill;
  gv_textColor : Fill;
}.

Record FontParams : Type := { fp_show : bool; fp_fontSize : Q }.

Record Units : Type := { un_tooltipUnits : Q; un_decimalPlaces : option Q }.

Record ShowBarLabels : Type := {
  sbl_show : bool;
  sbl_textColor : Fill;
  sbl_highlightColor : Fill;
}.

Record AlignBarLabels : Type := { abl_show : bool }.

Record BarShape : Type := {
  bs_shape : string;
  bs_labelPosition : string;
  bs_headColor : Fill;
}.

Record BarHeight : Type := { bh_show : bool; bh_height : Q }.

Record Experimental : Type := { ex_show : bool; ex_blendMode : string }.

Record ClearFilters : Type := { cf_show : bool }.

Record IBarChartSettings : Type := {
  generalView : GeneralView;
  fontParams : FontParams;
  units : Units;
  showBarLabels : ShowBarLabels;
  alignBarLabels : AlignBarLabels;
  barShape : BarShape;
  barHeight : BarHeight;
  experimental : Experimental;
  clearFilters : ClearFilters;
}.

(** The settings object a view model carries: the empty object
    [<IBarChartSettings> {}] of the empty view model, or a populated one. *)
Inductive SettingsObject : Type :=
| EmptySettings
| Settings (s : IBarChartSettings).

(** [settings.<group>]: [undefined] on the empty object. *)
Definition group {A} (f : IBarChartSettings -> A) (o : SettingsObject) : option A :=
  match o with
  | EmptySettings => None
  | Settings s => Some (f s)
  end.

Definition defaultSettings : IBarChartSettings := {|
  alignBarLabels := {| abl_show := false |};
  barHeight := {| bh_height := 30; bh_show := true |};
  barShape := {| bs_headColor := {| solid_color := "#FEA19E" |};
                 bs_labelPosition := "Top";
                 bs_shape := "Bar" |};
  clearFilters := {| cf_show := false |};
  experimental := {| ex_blendMode := "difference"; ex_show := false |};
  fontParams := {| fp_fontSize := 11; fp_show := false |};
  generalView := {| gv_barHeight := 30;
                    gv_barsColor := {| solid_color := "turquoise" |};
                    gv_minHeight := 250;
                    gv_opacity := 100;
                    gv_overlapColor := {| solid_color := "#FEA19E" |};
                    gv_textColor := {| solid_color := "#000" |} |};
  showBarLabels := {| sbl_highlightColor := {| solid_color := "#000" |};
                      sbl_show := true;
                      sbl_textColor := {| solid_color := "#FFF" |} |};
  units := {| un_decimalPlaces := None; un_tooltipUnits := 0 |};
|}.

Record ITextProperties : Type := {
  tp_fontFamily : string;
  tp_fontSize : string;
  tp_text : string;
}.

(** ** The band scale of d3-scale

    The visual builds its category axis with
    [scaleBand().domain(d).rangeRound([r0, r1]).padding(p).paddingOuter(o)].
    The library is not part of the repository; this is its [rescale]
    for a rounded range and the default alignment [0.5]: the domain keeps
    the first occurrence of each name, the step is rounded down, the start
    and the band width are rounded to the nearest integer.  [.padding(p)]
    sets both paddings and [.paddingOuter(o)] then replaces the outer one. *)

Module D3.

Local Open Scope Q_scope.

Record BandScale : Type := {
  domain : list string;
  step : Q;
  bandwidth : Q;
  start : Q;
}.

(** [Math.floor] and [Math.round] on finite numbers. *)
Definition floor (x : Q) : Q := inject_Z (Qfloor x).
Definition round (x : Q) : Q := inject_Z (Qfloor (x + (1 # 2))).

(** [Math.max(a, b)] on finite numbers. *)
Definition max (a b : Q) : Q := if Qle_bool a b then b else a.

(** [.domain(names)]: a name already in the domain is skipped. *)
Fixpoint domain_from (seen names : list string) : list string :=
  match names with
  | [] => []
  | x :: rest =>
      if bool_decide (x ∈ seen) then domain_from seen rest
      else x :: domain_from (x :: seen) rest
  end.

Definition scaleBand (names : list string) (r0 r1 : Q)
    (paddingInner paddingOuter : Q) : BandScale :=
  let dom := domain_from [] names in
  let n := inject_Z (Z.of_nat (length dom)) in
  let reverse := negb (Qle_bool r0 r1) in
  let start := if reverse then r1 else r0 in
  let stop := if reverse then r0 else r1 in
  let step := floor ((stop - start) / max 1 (n - paddingInner + paddingOuter * 2)) in
  let start' := start + (stop - start - step * (n - paddingInner)) * (1 # 2) in
  {| domain := dom;
     step := step;
     bandwidth := round (step * (1 - paddingInner));
     start := round start' |}.

(** [.padding(p)] sets the inner padding to [min(1, p)]. *)
Definition paddingInner_of (p : Q) : Q := if Qle_bool 1 p then 1 else p.

(** The position of a name in the domain. *)
Fixpoint index_of (name : string) (dom : list string) : option nat :=
  match dom with
  | [] => None
  | x :: rest =>
      if bool_decide (x = name) then Some 0%nat
      else S <$> index_of name rest
  end.

(** The bands [rescale] hands to the ordinal scale: [start + step * i] for
    the positions [i] of the domain, in reverse order when the range was
    given from high to low. *)
Definition bands (s : BandScale) (reversed : bool) : list Q :=
  let values :=
    map (fun i : nat => start s + step s * inject_Z (Z.of_nat i))
        (seq 0 (length (domain s))) in
  if reversed then reverse values else values.

(** [scale(name)]: the band of the name, [undefined] for a name that is
    not in the domain. *)
Definition band_of (s : BandScale) (reversed : bool) (name : string) : option Q :=
  match index_of name (domain s) with
  | Some i => bands s reversed !! i
  | None => None
  end.

End D3.

(** [BarChart.Config]. *)
Module Config.
Local Open Scope Q_scope.
Definition barPadding : Q := 0.15.
Definition fontScaleFactor : Q := 3.
Definition maxHeightScale : Q := 3.
Definition outerPaddingScale : Q := 0.5.
Definition solidOpacity : Q := 1.
Definition transparentOpacity : Q := 0.5.
Definition xAxisFontMultiplier : Q := 0.04.
Definition xScalePadding : Q := 0.15.
Definition xScaledMin : Q := 30.
End Config.

Section BarChart.

(** The host's selection identities are opaque: the visual only asks
    whether one identity [includes] another. *)
Context {SelectionId : Type}.

Record TooltipEntry : Type := { te_displayName : string; te_value : string }.

Record IBarChartDataPoint : Type := {
  value : PrimitiveValue;
  formattedValue : string;
  overlapValue : PrimitiveValue;
  formattedOverlapValue : string;
  category : string;
  precision : option Q;
  tooltip : list TooltipEntry;
  color : string;
  selectionId : option SelectionId;
  width : option Q;
  currTextWidth : Q;
  selected : bool;
}.

Record IBarChartViewModel : Type := {
  dataPoints : list IBarChartDataPoint;
  dataMax : PrimitiveValue;
  widthMax : Q;
  settings : SettingsObject;
}.

(** The services the visual receives: the runtime's conversions, the host
    ([colorPalette], the selection-id builder), the formatting utilities
    and the object-enumeration utility of the repository
    ([getValue], [getCategoricalObjectValue]).  None of them raises. *)
Record Host : Type := {
  runtime : Runtime;
  getColor : string -> string;
  createSelectionId : DataViewCategoryColumn -> nat -> option SelectionId;
  includes : SelectionId -> SelectionId -> bool;
  getFormatStringByColumn : option DataViewMetadataColumn -> option string;
  valueFormatter_create :
    option string -> DataViewValueColumn -> option DataViewValueColumn ->
    PrimitiveValue -> string;
  isStandardFormat : option string -> bool;
  getCustomFormatMetadata_precision : option string -> option Q;
  measureSvgTextWidth : ITextProperties -> Q;
  getValue_boolean :
    option (gmap string (gmap string PropertyValue)) -> string -> string -> bool -> bool;
  getValue_number :
    option (gmap string (gmap string PropertyValue)) -> string -> string -> Q -> Q;
  getValue_nullable :
    option (gmap string (gmap string PropertyValue)) -> string -> string ->
    option Q -> option Q;
  getValue_string :
    option (gmap string (gmap string PropertyValue)) -> string -> string ->
    string -> string;
  getValue_fill :
    option (gmap string (gmap string PropertyValue)) -> string -> string -> Fill -> Fill;
  getCategoricalObjectValue :
    DataViewCategoryColumn -> nat -> string -> string -> Fill -> Fill;
}.

Variable host : Host.

(** *** Helpers of the builder *)

(** [getOverlapIndex]: the [forEach] overwrites [index] at every column
    that owns the role. *)
Definition getOverlapIndex (md : DataViewMetadata) : Z :=
  if bool_decide (0 < length (md_columns md))%nat then
    fold_left
      (fun index element =>
         if bool_decide (is_Some (col_roles element !! "overlapValues"))
         then col_index element else index)
      (md_columns md) (-1)%Z
  else (-1)%Z.

(** The search loop of [getDataValueForOverlapValue], started at
    position [i]: the position of the first column whose source index is
    [overlapIndex], or [-1]. *)
Fixpoint overlap_search (vals : list DataViewValueColumn) (overlapIndex : Z)
    (i : nat) : Z :=
  match vals with
  | [] => (-1)%Z
  | v :: rest =>
      if bool_decide (col_index (val_source v) = overlapIndex)
      then Z.of_nat i
      else overlap_search rest overlapIndex (S i)
  end.

Definition getDataValueForOverlapValue (vals : list DataViewValueColumn)
    (overlapIndex : Z) : result (list PrimitiveValue) :=
  let index := overlap_search vals overlapIndex 0 in
  if bool_decide (index <> (-1)%Z) then
    v ← deref (vals !! Z.to_nat index); Ok (val_values v)
  else Ok [].

(** [getMetadataIndexFor]: the position of the first column with that
    display name, or the length of the array. *)
Fixpoint getMetadataIndexFor_from (displayName : string)
    (cols : list DataViewMetadataColumn) (i : nat) : nat :=
  match cols with
  | [] => i
  | c :: rest =>
      if bool_decide (col_displayName c = displayName) then i
      else getMetadataIndexFor_from displayName rest (S i)
  end.

Definition getMetadataIndexFor (displayName : string)
    (cols : list DataViewMetadataColumn) : nat :=
  getMetadataIndexFor_from displayName cols 0.



(** *** The view-model builder *)

Definition emptyViewModel : IBarChartViewModel := {|
  dataMax := PNumber (Finite 0);
  dataPoints := [];
  settings := EmptySettings;
  widthMax := 0;
|}.

(** The settings read from [metadata.objects], each with its default. *)
Definition readSettings
    (objects : option (gmap string (gmap string PropertyValue))) : IBarChartSettings :=
  let d := defaultSettings in {|
  alignBarLabels := {|
    abl_show := getValue_boolean host objects "alignBarLabels" "show"
                  (abl_show (alignBarLabels d)) |};
  barHeight := {|
    bh_height := getValue_number host objects "barHeight" "height"
                   (bh_height (barHeight d));
    bh_show := getValue_boolean host objects "barHeight" "show"
                 (bh_show (barHeight d)) |};
  barShape := {|
    bs_headColor := getValue_fill host objects "barShape" "headColor"
                      (bs_headColor (barShape d));
    bs_labelPosition := getValue_string host objects "barShape" "labelPosition"
                          (bs_labelPosition (barShape d));
    bs_shape := getValue_string host objects "barShape" "shape"
                  (bs_shape (barShape d)) |};
  clearFilters := {|
    cf_show := getValue_boolean host objects "clearFilters" "show"
                 (cf_show (clearFilters d)) |};
  experimental := {|
    ex_blendMode := getValue_string host objects "experimental" "blendMode"
                      (ex_blendMode (experimental d));
    ex_show := getValue_boolean host objects "experimental" "show"
                 (ex_show (experimental d)) |};
  fontParams := {|
    fp_fontSize := getValue_number host objects "fontParams" "fontSize"
                     (fp_fontSize (fontParams d));
    fp_show := getValue_boolean host objects "fontParams" "show"
                 (fp_show (fontParams d)) |};
  generalView := {|
    gv_barHeight := getValue_number host objects "generalView" "barHeight"
                      (gv_barHeight (generalView d));
    gv_barsColor := getValue_fill host objects "generalView" "barsColor"
                      (gv_barsColor (generalView d));
    gv_minHeight := getValue_number host objects "generalView" "minHeight"
                      (gv_minHeight (generalView d));
    gv_opacity := getValue_number host objects "generalView" "opacity"
                    (gv_opacity (generalView d));
    gv_overlapColor := getValue_fill host objects "generalView" "overlapColor"
                         (gv_overlapColor (generalView d));
    gv_textColor := getValue_fill host objects "generalView" "textColor"
                      (gv_textColor (generalView d)) |};
  showBarLabels := {|
    sbl_highlightColor := getValue_fill host objects "showBarLabels" "highlightColor"
                            (sbl_highlightColor (showBarLabels d));
    sbl_show := getValue_boolean host objects "showBarLabels" "show"
                  (sbl_show (showBarLabels d));
    sbl_textColor := getValue_fill host objects "showBarLabels" "textColor"
                       (sbl_textColor (showBarLabels d)) |};
  units := {|
    un_decimalPlaces := getValue_nullable host objects "units" "decimalPlaces"
                          (un_decimalPlaces (units d));
    un_tooltipUnits := getValue_number host objects "units" "tooltipUnits"
                         (un_tooltipUnits (units d)) |};
|}.

(** What the builder has in hand when it enters the row loop. *)
Record BuildContext : Type := {
  bc_category : DataViewCategoryColumn;
  bc_dataValue : DataViewValueColumn;
  bc_values : list DataViewValueColumn;
  bc_metadata : DataViewMetadata;
  bc_overlapDataValue : list PrimitiveValue;
  bc_settings : IBarChartSettings;
}.

(** [categorical.values[categorical.values.length - 1]]. *)
Definition lastValueColumn (c : BuildContext) : option DataViewValueColumn :=
  last (bc_values c).

(** [categorical.values.slice(1, categorical.values.length)]. *)
Definition tooltipData (c : BuildContext) : list DataViewValueColumn :=
  drop 1 (bc_values c).

(** One entry of the tooltip of row [i], for one auxiliary measure. *)
Definition tooltipEntry (c : BuildContext) (i : nat)
    (tooltipDataItem : DataViewValueColumn) : TooltipEntry :=
  let cols := md_columns (bc_metadata c) in
  let index := getMetadataIndexFor (col_displayName (val_source tooltipDataItem)) cols in
  let fmt := valueFormatter_create host
               (getFormatStringByColumn host (cols !! index))
               (bc_dataValue c) (lastValueColumn c) in
  {| te_displayName := col_displayName (val_source tooltipDataItem);
     te_value := fmt (array_get (val_values tooltipDataItem) i) |}.

(** The data point pushed by iteration [i] of the row loop.  The
    formatter the loop first creates from [metadata.columns[i]] is replaced
    before it is used and is left out. *)
Definition dataPointAt (c : BuildContext) (i : nat) : IBarChartDataPoint :=
  let rt := runtime host in
  let cols := md_columns (bc_metadata c) in
  let categoryValue := array_get (cat_values (bc_category c)) i in
  let defaultColor := {| solid_color := getColor host (ToString rt categoryValue) |} in
  let tooltip := map (tooltipEntry c i) (tooltipData c) in
  let format :=
    getFormatStringByColumn host
      (cols !! getMetadataIndexFor (col_displayName (val_source (bc_dataValue c))) cols) in
  let fmt := valueFormatter_create host format (bc_dataValue c) (lastValueColumn c) in
  let textProperties := {|
    tp_fontFamily := "Segoe UI";
    tp_fontSize :=
      NumberToString rt (Finite (fp_fontSize (fontParams (bc_settings c)))) ++ "px";
    tp_text := fmt categoryValue |} in
  {| category := ToString rt categoryValue;
     color := solid_color
                (getCategoricalObjectValue host (bc_category c) i
                   "colorSelector" "fill" defaultColor);
     currTextWidth := measureSvgTextWidth host textProperties;
     formattedOverlapValue := "";
     formattedValue := fmt (array_get (val_values (bc_dataValue c)) i);
     overlapValue :=
       if bool_decide (0 < length (bc_overlapDataValue c))%nat
       then array_get (bc_overlapDataValue c) i
       else PNull;
     precision :=
       if negb (isStandardFormat host format)
       then getCustomFormatMetadata_precision host format
       else None;
     selected := false;
     selectionId := createSelectionId host (bc_category c) i;
     tooltip := tooltip;
     value := array_get (val_values (bc_dataValue c)) i;
     width := None |}.

(** The row loop: [n] iterations are left, the next one is [i], and
    [acc] holds the points pushed so far. *)
Fixpoint rowLoop (c : BuildContext) (n i : nat)
    (acc : list IBarChartDataPoint) : list IBarChartDataPoint :=
  match n with
  | O => acc
  | S n' => rowLoop c n' (S i) (acc ++ [dataPointAt c i])
  end.

(** [dataMax] as the builder computes it after the loop. *)
Definition computeDataMax (maxLocal : PrimitiveValue)
    (overlapDataValue : list PrimitiveValue) : PrimitiveValue :=
  let overlapDataValueMax := Math_max (runtime host) overlapDataValue in
  if value_le (runtime host) maxLocal (PNumber overlapDataValueMax)
  then PNumber overlapDataValueMax
  else maxLocal.

(** The overlap series the builder works with. *)
Definition overlapSeries (md : DataViewMetadata) (vals : list DataViewValueColumn)
    : result (list PrimitiveValue) :=
  let overlapIndex := getOverlapIndex md in
  if bool_decide (overlapIndex <> (-1)%Z)
  then getDataValueForOverlapValue vals overlapIndex
  else Ok [].

(** [visualTransform].  The gate tests, in this order, [dataViews],
    [dataViews[0]], [categorical], [categories], [categories[0].source] and
    [values]; [categories[0]] itself and [values[0]] are read untested, the
    latter at the head of the row loop ([dataValue.values.length]). *)
Definition visualTransform (options : VisualUpdateOptions)
    : result IBarChartViewModel :=
  match dataViews options with
  | None => Ok emptyViewModel
  | Some dvs =>
  match dvs !! 0%nat with
  | None => Ok emptyViewModel
  | Some dv =>
  match categorical dv with
  | None => Ok emptyViewModel
  | Some cat =>
  match categories cat with
  | None => Ok emptyViewModel
  | Some cats =>
      category0 ← deref (cats !! 0%nat);
      match cat_source category0 with
      | None => Ok emptyViewModel
      | Some _ =>
      match values cat with
      | None => Ok emptyViewModel
      | Some vals =>
          let md := metadata dv in
          overlapDataValue ← overlapSeries md vals;
          let IBarChartSettings := readSettings (md_objects md) in
          dataValue ← deref (vals !! 0%nat);
          let c := {| bc_category := category0;
                      bc_dataValue := dataValue;
                      bc_values := vals;
                      bc_metadata := md;
                      bc_overlapDataValue := overlapDataValue;
                      bc_settings := IBarChartSettings |} in
          let len := Nat.max (length (cat_values category0))
                             (length (val_values dataValue)) in
          let IBarChartDataPoints := rowLoop c len 0 [] in
          Ok {| dataMax := computeDataMax (val_maxLocal dataValue) overlapDataValue;
                dataPoints := IBarChartDataPoints;
                settings := Settings IBarChartSettings;
                widthMax := 0 |}
      end end
  end end end end.

(** *** The geometry of [update] *)

(** What [update] computes before it draws. *)
Record Layout : Type := {
  ly_xScaledMax : Q;
  ly_xScaledMin : Q;
  ly_calcX : Q;
  ly_calcHeight : Q;
  ly_outerPadding : Q;
  ly_height : Q;
  ly_yScale : D3.BandScale;
}.

(** [a > b] on finite numbers. *)
Definition Qgtb (a b : Q) : bool := negb (Qle_bool a b).

Definition resolve_xScaledMin (settings : SettingsObject) : Q :=
  match group barHeight settings with
  | Some bh => if bh_show bh then bh_height bh else Config.xScaledMin
  | None => Config.xScaledMin
  end.

(** The branch of [update] that settles the outer padding and the drawing
    height; it returns the two.  No divisor in the layout can be zero
    except [2 * xScaledMin] when the fixed bar height is [0]; that division
    is reached only with a negative viewport height, where the quotient
    fails the test [> 0] both in the runtime ([-Infinity]) and here ([0]). *)
Definition fitRows (height len xScaledMax xScaledMin calcX calcHeight outerPadding : Q)
    : Q * Q :=
  if Qgtb calcX xScaledMax then
    if Qle_bool xScaledMin xScaledMax then
      let tempouterPadding :=
        ((height - (- Config.xScalePadding + len) * xScaledMax)
         / (2 * xScaledMax))%Q in
      (if Qgtb tempouterPadding 0 then tempouterPadding else outerPadding, height)
    else
      let tempOuterPadding :=
        ((height - (- Config.xScalePadding + len) * xScaledMin)
         / (2 * xScaledMin))%Q in
      (if Qgtb tempOuterPadding 0 then tempOuterPadding else outerPadding, height)
  else
    if Qgtb xScaledMin calcX && Qgtb calcHeight height
    then (outerPadding, calcHeight)
    else (outerPadding, height).

Definition layout (viewModel : IBarChartViewModel) (viewportHeight : Q) : Layout :=
  let settings := settings viewModel in
  let height := viewportHeight in
  let len := inject_Z (Z.of_nat (length (dataPoints viewModel))) in
  let xScaledMax := (height / Config.maxHeightScale)%Q in
  let xScaledMin := resolve_xScaledMin settings in
  let outerPadding := (- (0.1))%Q in
  let calcX :=
    (height / (2 * Config.outerPaddingScale - Config.xScalePadding + len))%Q in
  let calcHeight :=
    ((- (2) * outerPadding - Config.xScalePadding + len) * xScaledMin)%Q in
  let fitted :=
    fitRows height len xScaledMax xScaledMin calcX calcHeight outerPadding in
  {| ly_xScaledMax := xScaledMax;
     ly_xScaledMin := xScaledMin;
     ly_calcX := calcX;
     ly_calcHeight := calcHeight;
     ly_outerPadding := fitted.1;
     ly_height := fitted.2;
     ly_yScale :=
       D3.scaleBand (map category (dataPoints viewModel)) 5 fitted.2
         (D3.paddingInner_of Config.barPadding) fitted.1 |}.

(** The font size [update] settles on.  The two caps read
    [fontParams.show] again, and only when the size is out of range. *)
Definition fontSizeToUse (settings : SettingsObject) (bandwidth : Q) : result Q :=
  let fontSize0 :=
    match group fontParams settings with
    | Some fp =>
        if fp_show fp then fp_fontSize fp
        else (bandwidth / Config.fontScaleFactor)%Q
    | None => (bandwidth / Config.fontScaleFactor)%Q
    end in
  fontSize1 ←
    (if Qgtb 8.5 fontSize0 then
       fp ← deref (group fontParams settings);
       Ok (if negb (fp_show fp) then 8.5%Q else fontSize0)
     else Ok fontSize0);
  if Qgtb fontSize1 40 then
    fp ← deref (group fontParams settings);
    Ok (if negb (fp_show fp) then 40%Q else fontSize1)
  else Ok fontSize1.


(** *** Selection *)

(** A rendered element of a d3 selection: the datum bound to it and its
    inline [fill-opacity] style, [None] when the style is not set. *)
Record Bar : Type := {
  datum : IBarChartDataPoint;
  fillOpacity : option Q;
}.

Definition setFillOpacity (o : option Q) (b : Bar) : Bar :=
  {| datum := datum b; fillOpacity := o |}.

Definition isSelectionIdInArray (selectionIds : option (list SelectionId))
    (selectionId : option SelectionId) : bool :=
  match selectionIds, selectionId with
  | Some ids, Some id =>
      existsb (fun currentSelectionId => includes host currentSelectionId id) ids
  | _, _ => false
  end.

(** [syncSelectionState]: the elements of the selection afterwards. *)
Definition syncSelectionState (selection : option (list Bar))
    (selectionIds : option (list SelectionId)) : option (list Bar) :=
  match selection, selectionIds with
  | Some bars, Some ids =>
      if bool_decide (length ids = 0)%nat then
        Some (map (setFillOpacity None) bars)
      else
        Some (map
                (fun bar =>
                   let isSelected :=
                     isSelectionIdInArray selectionIds (selectionId (datum bar)) in
                   setFillOpacity
                     (Some (if isSelected then Config.solidOpacity
                            else Config.transparentOpacity))
                     bar)
                bars)
  | _, _ => selection
  end.

(** *** The format pane *)

Record NumberRange : Type := { nr_max : Q; nr_min : Q }.

(** A [VisualObjectInstance]; its [selector] is always [null]. *)
Record VisualObjectInstance : Type := {
  voi_objectName : string;
  voi_properties : gmap string PropertyValue;
  voi_validValues : gmap string NumberRange;
}.

(** [this.IBarChartSettings.<group>]: the field is [undefined] before the
    first update, and the empty object has no group. *)
Definition thisGroup {A} (f : IBarChartSettings -> A)
    (thisSettings : option SettingsObject) : result A :=
  s ← deref thisSettings; deref (group f s).

Definition enumerateObjectInstances (thisSettings : option SettingsObject)
    (objectName : string) : result (list VisualObjectInstance) :=
  if String.eqb objectName "fontParams" then
    g ← thisGroup fontParams thisSettings;
    Ok [ {| voi_objectName := objectName;
            voi_properties :=
              {[ "fontSize" := VNumber (fp_fontSize g);
                 "show" := VBoolean (fp_show g) ]};
            voi_validValues := ∅ |} ]
  else if String.eqb objectName "generalView" then
    g ← thisGroup generalView thisSettings;
    Ok [ {| voi_objectName := objectName;
            voi_properties :=
              {[ "barsColor" := VFill (gv_barsColor g);
                 "opacity" := VNumber (gv_opacity g);
                 "overlapColor" := VFill (gv_overlapColor g);
                 "textColor" := VFill (gv_textColor g) ]};
            voi_validValues :=
              {[ "barHeight" := {| nr_max := 200; nr_min := 20 |};
                 "minHeight" := {| nr_max := 2500; nr_min := 50 |};
                 "opacity" := {| nr_max := 100; nr_min := 10 |} ]} |} ]
  else if String.eqb objectName "showBarLabels" then
    g ← thisGroup showBarLabels thisSettings;
    Ok [ {| voi_objectName := objectName;
            voi_properties :=
              {[ "highlightColor" := VFill (sbl_highlightColor g);
                 "show" := VBoolean (sbl_show g);
                 "textColor" := VFill (sbl_textColor g) ]};
            voi_validValues := ∅ |} ]
  else if String.eqb objectName "alignBarLabels" then
    g ← thisGroup alignBarLabels thisSettings;
    Ok [ {| voi_objectName := objectName;
            voi_properties := {[ "show" := VBoolean (abl_show g) ]};
            voi_validValues := ∅ |} ]
  else if String.eqb objectName "barShape" then
    g ← thisGroup barShape thisSettings;
    Ok [ {| voi_objectName := objectName;
            voi_properties :=
              {[ "headColor" := VFill (bs_headColor g);
                 "labelPosition" := VText (bs_labelPosition g);
                 "shape" := VText (bs_shape g) ]};
            voi_validValues := ∅ |} ]
  else if String.eqb objectName "barHeight" then
    g ← thisGroup barHeight thisSettings;
    Ok [ {| voi_objectName := objectName;
            voi_properties :=
              {[ "height" := VNumber (bh_height g);
                 "show" := VBoolean (bh_show g) ]};
            voi_validValues :=
              {[ "height" := {| nr_max := 200; nr_min := 20 |} ]} |} ]
  else if String.eqb objectName "experimental" then
    g ← thisGroup experimental thisSettings;
    Ok [ {| voi_objectName := objectName;
            voi_properties :=
              {[ "blendMode" := VText (ex_blendMode g);
                 "show" := VBoolean (ex_show g) ]};
            voi_validValues := ∅ |} ]
  else if String.eqb objectName "clearFilters" then
    g ← thisGroup clearFilters thisSettings;
    Ok [ {| voi_objectName := objectName;
            voi_properties := {[ "show" := VBoolean (cf_show g) ]};
            voi_validValues := ∅ |} ]
  else Ok [].

(** The part of the visual's state the format pane reads, and what
    [update] does to it: [this.IBarChartSettings = viewModel.settings]. *)
Definition applySettings (viewModel : IBarChartViewModel) : option SettingsObject :=
  Some (settings viewModel).

(** The sub-object [settings.<objectName>] of [IBarChartSettings], as
    the object it is: one key per field of the group. *)
Definition subObject (s : IBarChartSettings) (objectName : string)
    : option (gmap string PropertyValue) :=
  if String.eqb objectName "generalView" then
    let g := generalView s in
    Some {[ "minHeight" := VNumber (gv_minHeight g);
            "barHeight" := VNumber (gv_barHeight g);
            "opacity" := VNumber (gv_opacity g);
            "barsColor" := VFill (gv_barsColor g);
            "overlapColor" := VFill (gv_overlapColor g);
            "textColor" := VFill (gv_textColor g) ]}
  else if String.eqb objectName "fontParams" then
    let g := fontParams s in
    Some {[ "show" := VBoolean (fp_show g);
            "fontSize" := VNumber (fp_fontSize g) ]}
  else if String.eqb objectName "showBarLabels" then
    let g := showBarLabels s in
    Some {[ "show" := VBoolean (sbl_show g);
            "textColor" := VFill (sbl_textColor g);
            "highlightColor" := VFill (sbl_highlightColor g) ]}
  else if String.eqb objectName "alignBarLabels" then
    Some {[ "show" := VBoolean (abl_show (alignBarLabels s)) ]}
  else if String.eqb objectName "barShape" then
    let g := barShape s in
    Some {[ "shape" := VText (bs_shape g);
            "labelPosition" := VText (bs_labelPosition g);
            "headColor" := VFill (bs_headColor g) ]}
  else if String.eqb objectName "barHeight" then
    let g := barHeight s in
    Some {[ "show" := VBoolean (bh_show g);
            "height" := VNumber (bh_height g) ]}
  else if String.eqb objectName "experimental" then
    let g := experimental s in
    Some {[ "show" := VBoolean (ex_show g);
            "blendMode" := VText (ex_blendMode g) ]}
  else if String.eqb objectName "clearFilters" then
    Some {[ "show" := VBoolean (cf_show (clearFilters s)) ]}
  else None.

(** The eight object names of the format pane. *)
Definition paneObjects : list string :=
  [ "generalView"; "fontParams"; "showBarLabels"; "alignBarLabels";
    "barShape"; "barHeight"; "experimental"; "clearFilters" ].

(** *** Inputs the builder accepts *)

(** A column carries the overlap role. *)
Definition hasOverlapRole (c : DataViewMetadataColumn) : Prop :=
  is_Some (col_roles c !! "overlapValues").

(** A value column is the one declared at index [overlapIndex]. *)
Definition declaredAt (overlapIndex : Z) (v : DataViewValueColumn) : bool :=
  bool_decide (col_index (val_source v) = overlapIndex).

(** [options] passes the validation gate of [visualTransform] with the
    data view [dv], the category column [category0], the value columns
    [vals] and the primary series [dataValue]. *)
Definition accepted (options : VisualUpdateOptions) (dv : DataView)
    (category0 : DataViewCategoryColumn) (vals : list DataViewValueColumn)
    (dataValue : DataViewValueColumn) : Prop :=
  ∃ dvs cat cats src,
    dataViews options = Some dvs ∧ dvs !! 0%nat = Some dv ∧
    categorical dv = Some cat ∧ categories cat = Some cats ∧
    cats !! 0%nat = Some category0 ∧ cat_source category0 = Some src ∧
    values cat = Some vals ∧ vals !! 0%nat = Some dataValue.

(** A part the gate of [visualTransform] tests is missing from
    [options]: [dataViews], [dataViews[0]], [categorical], [categories],
    the [source] of [categories[0]], or [values]. *)
Definition missingPart (options : VisualUpdateOptions) : Prop :=
  dataViews options = None ∨
  ∃ dvs, dataViews options = Some dvs ∧
    (dvs !! 0%nat = None ∨
     ∃ dv, dvs !! 0%nat = Some dv ∧
       (categorical dv = None ∨
        ∃ cat, categorical dv = Some cat ∧
          (categories cat = None ∨
           ∃ cats category0, categories cat = Some cats ∧
             cats !! 0%nat = Some category0 ∧
             (cat_source category0 = None ∨ values cat = None)))).




(** The font size of an update pass: [fontSizeToUse] at the band width
    of the category scale. *)
Definition updateFontSize (viewModel : IBarChartViewModel) (viewportHeight : Q)
    : result Q :=
  fontSizeToUse (settings viewModel)
    (D3.bandwidth (ly_yScale (layout viewModel viewportHeight))).

(** [x] clamped into [[8.5, 40]]. *)
Definition clampFont (x : Q) : Q := Qmax 8.5 (Qmin 40 x).

(** The identity [id] of a row is contained in the selection [S]: some
    identity of [S] includes it. *)
Definition containedIn (id : option SelectionId) (S : list SelectionId) : Prop :=
  ∃ i cur, id = Some i ∧ In cur S ∧ includes host cur i = true.

(** A solid fill: opacity [1], or no inline style at all. *)
Definition solid (o : option Q) : Prop := o = None ∨ o = Some Config.solidOpacity.

(** The build context of an accepted input. *)
Definition contextOf (dv : DataView) (category0 : DataViewCategoryColumn)
    (vals : list DataViewValueColumn) (dataValue : DataViewValueColumn)
    (ov : list PrimitiveValue) : BuildContext :=
  {| bc_category := category0;
     bc_dataValue := dataValue;
     bc_values := vals;
     bc_metadata := metadata dv;
     bc_overlapDataValue := ov;
     bc_settings := readSettings (md_objects (metadata dv)) |}.

(** *** Tooltip items and label positions *)

(** [getTooltipData]: the category with the formatted value, then one item
    per tooltip entry of the data point.  The builder stores formatted
    strings as entry values, so [typeof element.value] is ["string"] and the
    item is [(element.value || 0).toString()]; the branch for other values
    is not reached. *)
Definition getTooltipData (value : IBarChartDataPoint) : list TooltipEntry :=
  {| te_displayName := category value; te_value := formattedValue value |} ::
  map (fun element =>
         {| te_displayName := te_displayName element;
            te_value := if bool_decide (te_value element = "") then "0"
                        else te_value element |})
      (tooltip value).

(** Where [update] draws the bar of a row: its [y] attribute is
    [yScale(d.category)], its [height] is [yScale.bandwidth()].  The range
    of the scale is [[5, height]], reversed when the drawing height is
    below 5. *)
Definition barY (viewModel : IBarChartViewModel) (viewportHeight : Q)
    (d : IBarChartDataPoint) : option Q :=
  let L := layout viewModel viewportHeight in
  D3.band_of (ly_yScale L) (negb (Qle_bool 5 (ly_height L))) (category d).

Definition barThickness (viewModel : IBarChartViewModel) (viewportHeight : Q) : Q :=
  D3.bandwidth (ly_yScale (layout viewModel viewportHeight)).





End BarChart.

(** ** The tooltip service wrapper

    [tooltipServiceWrapper.ts] as a state machine.  The state is the
    wrapper's [handleTouchTimeoutId], the runtime's table of pending
    timeouts with the next identifier it will hand out (identifiers are
    positive), and the calls made to the host's tooltip service so far.  An
    input is one of the five DOM events the wrapper listens to, or the
    runtime firing a timeout; the delay itself is not modelled.  A handler
    that raises keeps the effects it had before. *)

Section TooltipServiceWrapper.

Context {Data Identity DataItem : Type}.

Record ITooltipEventArgs : Type := {
  tea_data : Data;
  tea_coordinates : option (list Q);
  tea_elementCoordinates : option (list Q);
  tea_isTouchEvent : bool;
}.

(** The argument of the service's [show] and [move]. *)
Record TooltipOptions : Type := {
  to_coordinates : option (list Q);
  to_dataItems : option (list DataItem);
  to_identities : list Identity;
  to_isTouchEvent : bool;
}.

Inductive ServiceCall : Type :=
| Show (o : TooltipOptions)
| Move (o : TooltipOptions)
| Hide (immediately isTouchEvent : bool).

(** What a handler reads from the current DOM event: the mouse buttons
    ([None] when the event has none), whether its [sourceEvent] property is
    something other than [undefined], the datum of the target, and the
    pointer and touch coordinates relative to the root and to the target. *)
Record DomEvent : Type := {
  ev_buttons : option N;
  ev_hasSourceEvent : bool;
  ev_data : Data;
  ev_pointerRoot : list Q;
  ev_pointerTarget : list Q;
  ev_touchesRoot : list (list Q);
  ev_touchesTarget : list (list Q);
}.

Record Wrapper : Type := {
  handleTouchTimeoutId : option positive;
  pendingTimeouts : list positive;
  nextTimeout : positive;
  calls : list ServiceCall;
}.

(** How a handler ends, and the state it leaves. *)
Inductive Outcome : Type :=
| Completed (w : Wrapper)
| Threw (w : Wrapper).

Definition stateAfter (o : Outcome) : Wrapper :=
  match o with
  | Completed w => w
  | Threw w => w
  end.

(** The delegates [addTooltip] receives ([null] is [None]), its flag, and
    whether the window has pointer events. *)
Variable getTooltipInfoDelegate : ITooltipEventArgs -> option (list DataItem).
Variable getDataPointIdentity : ITooltipEventArgs -> option Identity.
Variable reloadTooltipDataOnMouseMove : bool.
Variable usePointerEvents : bool.

Definition call (c : ServiceCall) (w : Wrapper) : Wrapper :=
  {| handleTouchTimeoutId := handleTouchTimeoutId w;
     pendingTimeouts := pendingTimeouts w;
     nextTimeout := nextTimeout w;
     calls := (calls w ++ [c])%list |}.

(** [getCoordinates] for the root ([ofRoot]) or for the target.  In the
    pointer branch the loop [while (s === e.sourceEvent) { e = s; }] starts
    with [s] undefined: when [e.sourceEvent] is [undefined] too, [e] becomes
    [undefined] and the next test reads a property of it; otherwise the
    loop does nothing. *)
Definition getCoordinates (e : DomEvent) (ofRoot isPointerEvent : bool)
    : result (option (list Q)) :=
  if isPointerEvent then
    if ev_hasSourceEvent e
    then Ok (Some (if ofRoot then ev_pointerRoot e else ev_pointerTarget e))
    else TypeError
  else
    Ok ((if ofRoot then ev_touchesRoot e else ev_touchesTarget e) !! 0%nat).

Definition makeTooltipEventArgs (e : DomEvent) (isPointerEvent isTouchEvent : bool)
    : result ITooltipEventArgs :=
  mouseCoordinates ← getCoordinates e true isPointerEvent;
  elementCoordinates ← getCoordinates e false isPointerEvent;
  Ok {| tea_data := ev_data e;
        tea_coordinates := mouseCoordinates;
        tea_elementCoordinates := elementCoordinates;
        tea_isTouchEvent := isTouchEvent |}.

Definition canDisplayTooltip (w : Wrapper) (e : DomEvent) : bool :=
  let canDisplay :=
    match ev_buttons e with
    | Some buttons => negb (negb (N.eqb buttons 0))
    | None => true
    end in
  canDisplay && bool_decide (handleTouchTimeoutId w = None).

(** [selectionId ? [selectionId] : []]. *)
Definition identitiesOf (selectionId : option Identity) : list Identity :=
  match selectionId with
  | Some id => [id]
  | None => []
  end.

Definition onMouseOver (w : Wrapper) (e : DomEvent) : Outcome :=
  if negb (canDisplayTooltip w e) then Completed w
  else
    match makeTooltipEventArgs e true false with
    | TypeError => Threw w
    | Ok tooltipEventArgs =>
        match getTooltipInfoDelegate tooltipEventArgs with
        | None => Completed w
        | Some tooltipInfo =>
            Completed
              (call (Show {| to_coordinates := tea_coordinates tooltipEventArgs;
                             to_dataItems := Some tooltipInfo;
                             to_identities :=
                               identitiesOf (getDataPointIdentity tooltipEventArgs);
                             to_isTouchEvent := false |}) w)
        end
    end.

Definition onMouseOut (w : Wrapper) : Outcome := Completed (call (Hide false false) w).

Definition onMouseMove (w : Wrapper) (e : DomEvent) : Outcome :=
  if negb (canDisplayTooltip w e) then Completed w
  else
    match makeTooltipEventArgs e true false with
    | TypeError => Threw w
    | Ok tooltipEventArgs =>
        let move tooltipInfo :=
          Completed
            (call (Move {| to_coordinates := tea_coordinates tooltipEventArgs;
                           to_dataItems := tooltipInfo;
                           to_identities :=
                             identitiesOf (getDataPointIdentity tooltipEventArgs);
                           to_isTouchEvent := false |}) w) in
        if reloadTooltipDataOnMouseMove then
          match getTooltipInfoDelegate tooltipEventArgs with
          | None => Completed w
          | Some tooltipInfo => move (Some tooltipInfo)
          end
        else move None
    end.

Definition onTouchStart (w : Wrapper) (e : DomEvent) : Outcome :=
  let w1 := call (Hide true true) w in
  match makeTooltipEventArgs e usePointerEvents true with
  | TypeError => Threw w1
  | Ok tooltipEventArgs =>
      Completed
        (call (Show {| to_coordinates := tea_coordinates tooltipEventArgs;
                       to_dataItems := getTooltipInfoDelegate tooltipEventArgs;
                       to_identities :=
                         identitiesOf (getDataPointIdentity tooltipEventArgs);
                       to_isTouchEvent := true |}) w1)
  end.

(** [clearTimeout(id)] of the runtime. *)
Definition clearTimeout (id : positive) (w : Wrapper) : Wrapper :=
  {| handleTouchTimeoutId := handleTouchTimeoutId w;
     pendingTimeouts := filter (fun t => t <> id) (pendingTimeouts w);
     nextTimeout := nextTimeout w;
     calls := calls w |}.

(** The touch-end handler: hide, clear the timeout it knows of, and set a
    new one ([setTimeout] hands out [nextTimeout]). *)
Definition onTouchEnd (w : Wrapper) : Outcome :=
  let w1 := call (Hide false true) w in
  let w2 := match handleTouchTimeoutId w1 with
            | Some id => clearTimeout id w1
            | None => w1
            end in
  Completed
    {| handleTouchTimeoutId := Some (nextTimeout w2);
       pendingTimeouts := (pendingTimeouts w2 ++ [nextTimeout w2])%list;
       nextTimeout := Pos.succ (nextTimeout w2);
       calls := calls w2 |}.

(** The runtime fires the timeout [id] if it is still pending; its
    callback forgets the identifier. *)
Definition onTimeout (w : Wrapper) (id : positive) : Outcome :=
  if bool_decide (id ∈ pendingTimeouts w) then
    Completed
      {| handleTouchTimeoutId := None;
         pendingTimeouts := filter (fun t => t <> id) (pendingTimeouts w);
         nextTimeout := nextTimeout w;
         calls := calls w |}
  else Completed w.

Inductive Input : Type :=
| MouseOver (e : DomEvent)
| MouseOut
| MouseMove (e : DomEvent)
| TouchStart (e : DomEvent)
| TouchEnd
| Timeout (id : positive).

Definition handle (w : Wrapper) (i : Input) : Outcome :=
  match i with
  | MouseOver e => onMouseOver w e
  | MouseOut => onMouseOut w
  | MouseMove e => onMouseMove w e
  | TouchStart e => onTouchStart w e
  | TouchEnd => onTouchEnd w
  | Timeout id => onTimeout w id
  end.

(** The inputs one after the other; a handler that raises does not stop
    the next event from being delivered. *)
Definition run (w : Wrapper) (inputs : list Input) : Wrapper :=
  fold_left (fun w i => stateAfter (handle w i)) inputs w.

(** The wrapper as constructed: no timeout, no call. *)
Definition newWrapper : Wrapper :=
  {| handleTouchTimeoutId := None;
     pendingTimeouts := [];
     nextTimeout := 1%positive;
     calls := [] |}.

(** At most the wrapper's own timeout is pending, and the runtime has not
    yet handed out the identifiers from [nextTimeout] on. *)
Definition oneTimeout (w : Wrapper) : Prop :=
  pendingTimeouts w = match handleTouchTimeoutId w with
                      | Some id => [id]
                      | None => []
                      end ∧
  ∀ id, handleTouchTimeoutId w = Some id -> (id < nextTimeout w)%positive.

End TooltipServiceWrapper.

(** The delegates [update] hands to [addTooltip]: the tooltip items of the
    row under the pointer and its selection identity.  It passes no
    [reloadTooltipDataOnMouseMove], which then counts as [false]. *)
Definition tooltipInfoOf {SelectionId : Type}
    (tooltipEvent : @ITooltipEventArgs (@IBarChartDataPoint SelectionId))
    : option (list TooltipEntry) :=
  Some (getTooltipData (tea_data tooltipEvent)).

Definition tooltipIdentityOf {SelectionId : Type}
    (tooltipEvent : @ITooltipEventArgs (@IBarChartDataPoint SelectionId))
    : option SelectionId :=
  selectionId (tea_data tooltipEvent).

(** The wrapper's handlers as the visual registers them. *)
Definition visualHandle {SelectionId : Type} (usePointerEvents : bool)
    (w : @Wrapper SelectionId TooltipEntry)
    (i : @Input (@IBarChartDataPoint SelectionId)) : Outcome :=
  handle tooltipInfoOf tooltipIdentityOf false usePointerEvents w i.

(** ** Sample inputs

    A host without user overrides: every setting keeps its default, every
    row the palette colour of its category, and selection identities are
    row numbers. *)

Definition plainRuntime : Runtime := {|
  StringToNumber := fun _ => NaN;
  NumberToString := fun _ => "";
|}.

Definition plainHost : @Host nat := {|
  runtime := plainRuntime;
  getColor := fun key => key;
  createSelectionId := fun _ i => Some i;
  includes := Nat.eqb;
  getFormatStringByColumn := fun c => c ≫= col_format;
  valueFormatter_create := fun _ _ _ v => ToString plainRuntime v;
  isStandardFormat := fun _ => true;
  getCustomFormatMetadata_precision := fun _ => None;
  measureSvgTextWidth := fun _ => 0%Q;
  getValue_boolean := fun _ _ _ d => d;
  getValue_number := fun _ _ _ d => d;
  getValue_nullable := fun _ _ _ d => d;
  getValue_string := fun _ _ _ d => d;
  getValue_fill := fun _ _ _ d => d;
  getCategoricalObjectValue := fun _ _ _ _ d => d;
|}.

Definition num (q : Q) : PrimitiveValue := PNumber (Finite q).

Definition categoryColumn : DataViewMetadataColumn := {|
  col_displayName := "Category"; col_index := 0;
  col_roles := {[ "category" := true ]}; col_format := None |}.

Definition measureColumn : DataViewMetadataColumn := {|
  col_displayName := "Value"; col_index := 1;
  col_roles := {[ "measure" := true ]}; col_format := None |}.

Definition overlapColumn : DataViewMetadataColumn := {|
  col_displayName := "Overlap"; col_index := 2;
  col_roles := {[ "overlapValues" := true ]}; col_format := None |}.

Definition sampleCategory (cats : list PrimitiveValue) : DataViewCategoryColumn :=
  {| cat_source := Some categoryColumn; cat_values := cats |}.

Definition primarySeries (primary : list PrimitiveValue) (maxLocal : PrimitiveValue)
    : DataViewValueColumn :=
  {| val_source := measureColumn; val_values := primary; val_maxLocal := maxLocal |}.

Definition sampleSeries (primary : list PrimitiveValue) (maxLocal : PrimitiveValue)
    (overlap : option (list PrimitiveValue)) : list DataViewValueColumn :=
  primarySeries primary maxLocal ::
  match overlap with
  | Some ov => [ {| val_source := overlapColumn; val_values := ov;
                    val_maxLocal := PUndefined |} ]
  | None => []
  end.

(** A data view with the given category rows, primary series (and its
    declared maximum) and, when [overlap] is given, an overlap series. *)
Definition sampleDataView (cats : list PrimitiveValue) (primary : list PrimitiveValue)
    (maxLocal : PrimitiveValue) (overlap : option (list PrimitiveValue)) : DataView := {|
  categorical := Some {|
    categories := Some [ sampleCategory cats ];
    values := Some (sampleSeries primary maxLocal overlap) |};
  metadata := {|
    md_columns := categoryColumn :: measureColumn ::
                  match overlap with Some _ => [overlapColumn] | None => [] end;
    md_objects := None |} |}.

Definition sampleOptions (cats : list PrimitiveValue) (primary : list PrimitiveValue)
    (maxLocal : PrimitiveValue) (overlap : option (list PrimitiveValue))
    (height : Q) : VisualUpdateOptions := {|
  dataViews := Some [ sampleDataView cats primary maxLocal overlap ];
  viewport := {| vp_width := 400; vp_height := height |} |}.

(** Three rows with an overlap series, and two rows without one. *)
Definition threeRows : VisualUpdateOptions :=
  sampleOptions [PString "A"; PString "B"; PString "C"]
    [num 10; num 20; num 30] (num 30) (Some [num 5; num 25; num 15]) 300.

Definition twoRows : VisualUpdateOptions :=
  sampleOptions [PString "A"; PString "B"] [num 10; num 20] (num 20) None 20.

(** One primary value and no category row. *)
Definition noCategoryRow : VisualUpdateOptions :=
  sampleOptions [] [num 10] (num 10) None 300.


(** Fewer category rows than primary values. *)
Definition shortCategories : VisualUpdateOptions :=
  sampleOptions [PString "A"] [num 10; num 20; num 30] (num 30) None 300.

(** The view model the builder returns, the empty one if it raises. *)
Definition modelOf (options : VisualUpdateOptions) : @IBarChartViewModel nat :=
  match visualTransform plainHost options with
  | Ok vm => vm
  | TypeError => emptyViewModel
  end.

(** The default settings with a fixed font size of 50. *)
Definition fixedFontSettings : IBarChartSettings := {|
  generalView := generalView defaultSettings;
  fontParams := {| fp_show := true; fp_fontSize := 50 |};
  units := units defaultSettings;
  showBarLabels := showBarLabels defaultSettings;
  alignBarLabels := alignBarLabels defaultSettings;
  barShape := barShape defaultSettings;
  barHeight := barHeight defaultSettings;
  experimental := experimental defaultSettings;
  clearFilters := clearFilters defaultSettings;
|}.

Definition fixedFontModel : @IBarChartViewModel nat := {|
  dataPoints := dataPoints (modelOf threeRows);
  dataMax := dataMax (modelOf threeRows);
  widthMax := 0;
  settings := Settings fixedFontSettings;
|}.

(** Rendered rows over given data points, with no inline style yet. *)
Definition render {SelectionId : Type}
    (dps : list (@IBarChartDataPoint SelectionId)) : list Bar :=
  map (fun d => {| datum := d; fillOpacity := None |}) dps.

(** A data view whose [categories] array is empty. *)
Definition noCategoryColumn : VisualUpdateOptions := {|
  dataViews := Some [ {|
    categorical := Some {|
      categories := Some [];
      values := Some [ {| val_source := measureColumn;
                          val_values := [num 10; num 20; num 30];
                          val_maxLocal := num 30 |} ] |};
    metadata := {| md_columns := [measureColumn]; md_objects := None |} |} ];
  viewport := {| vp_width := 400; vp_height := 300 |} |}.

(** A data view whose [values] array is empty, and options without data
    views. *)
Definition noValueColumn : VisualUpdateOptions := {|
  dataViews := Some [ {|
    categorical := Some {|
      categories := Some [ sampleCategory [PString "A"] ];
      values := Some [] |};
    metadata := {| md_columns := [categoryColumn]; md_objects := None |} |} ];
  viewport := {| vp_width := 400; vp_height := 300 |} |}.

Definition noDataViews : VisualUpdateOptions := {|
  dataViews := None;
  viewport := {| vp_width := 400; vp_height := 300 |} |}.

(** An overlap series with a large value and a missing one. *)
Definition holedOverlap : VisualUpdateOptions :=
  sampleOptions [PString "A"; PString "B"] [num 10; num 30] (num 30)
    (Some [num 50; PUndefined]) 300.

(** Two rows whose primary series declares no maximum, one whose
    declared maximum is -Infinity, and one whose declared maximum 5 lies
    below its values; none has an overlap series. *)
Definition undeclaredMaximum : VisualUpdateOptions :=
  sampleOptions [PString "A"; PString "B"] [num 10; num 20] PUndefined None 300.

Definition infiniteMaximum : VisualUpdateOptions :=
  sampleOptions [PString "A"; PString "B"] [num 10; num 20] (PNumber NegInfinity)
    None 300.

Definition lowMaximum : VisualUpdateOptions :=
  sampleOptions [PString "A"; PString "B"] [num 10; num 20] (num 5) None 300.



(** A view model of two rows under the same category text. *)
Definition sameCategory : VisualUpdateOptions :=
  sampleOptions [PString "A"; PString "A"] [num 10; num 20] (num 20) None 300.

(** A DOM event over a row, with or without a [sourceEvent]. *)
Definition eventOver {Data : Type} (d : Data) (buttons : option N)
    (hasSourceEvent : bool) : @DomEvent Data := {|
  ev_buttons := buttons;
  ev_hasSourceEvent := hasSourceEvent;
  ev_data := d;
  ev_pointerRoot := [10%Q; 20%Q];
  ev_pointerTarget := [1%Q; 2%Q];
  ev_touchesRoot := [];
  ev_touchesTarget := [] |}.

(** The first row the builder makes of the three-row sample. *)
Definition firstRow : @IBarChartDataPoint nat :=
  dataPointAt plainHost
    (contextOf plainHost
       (sampleDataView [PString "A"; PString "B"; PString "C"]
          [num 10; num 20; num 30] (num 30) (Some [num 5; num 25; num 15]))
       (sampleCategory [PString "A"; PString "B"; PString "C"])
       (sampleSeries [num 10; num 20; num 30] (num 30) (Some [num 5; num 25; num 15]))
       (primarySeries [num 10; num 20; num 30] (num 30))
       [num 5; num 25; num 15])
    0.

(** The second row of the same sample. *)
Definition secondRow : @IBarChartDataPoint nat :=
  dataPointAt plainHost
    (contextOf plainHost
       (sampleDataView [PString "A"; PString "B"; PString "C"]
          [num 10; num 20; num 30] (num 30) (Some [num 5; num 25; num 15]))
       (sampleCategory [PString "A"; PString "B"; PString "C"])
       (sampleSeries [num 10; num 20; num 30] (num 30) (Some [num 5; num 25; num 15]))
       (primarySeries [num 10; num 20; num 30] (num 30))
       [num 5; num 25; num 15])
    1.

(** A wrapper whose delegates return the datum itself. *)
Definition echoInfo (args : @ITooltipEventArgs nat) : option (list nat) :=
  Some [tea_data args].
Definition echoIdentity (args : @ITooltipEventArgs nat) : option nat :=
  Some (tea_data args).

(** ** Properties *)

Section Properties.

Context {SelectionId : Type} (host : @Host SelectionId).

Local Open Scope list_scope.

(** *** The order on numbers *)

Lemma Qle_bool_false (x y : Q) : Qle_bool x y = false -> (y < x)%Q.
Proof.
  intros H. apply Qnot_le_lt. intros Hle.
  apply Qle_bool_iff in Hle. congruence.
Qed.

Lemma le_refl (a : number) : isNaN a = false -> le a a = true.
Proof.
  destruct a; simpl; try done.
  intros _. apply Qle_bool_iff. apply Qle_refl.
Qed.

Lemma le_trans (a b c : number) : le a b = true -> le b c = true -> le a c = true.
Proof.
  destruct a, b, c; simpl; try done.
  rewrite !Qle_bool_iff. apply Qle_trans.
Qed.

Lemma le_not_NaN (a b : number) :
  le a b = true -> isNaN a = false /\ isNaN b = false.
Proof. destruct a, b; simpl; try done. Qed.

Lemma gt_le (a b : number) : gt a b = true -> le b a = true.
Proof.
  destruct a, b; simpl; try done.
  intros H. apply negb_true_iff, Qle_bool_false in H.
  apply Qle_bool_iff. lra.
Qed.

Lemma not_gt_le (a b : number) :
  isNaN a = false -> isNaN b = false -> gt a b = false -> le a b = true.
Proof.
  destruct a, b; simpl; try done.
  intros _ _ H. apply negb_false_iff in H. done.
Qed.

Lemma not_le_gt (a b : number) :
  isNaN a = false -> isNaN b = false -> le a b = false -> gt a b = true.
Proof.
  destruct a, b; simpl; try done.
  intros _ _ H. apply Qle_bool_false in H.
  apply negb_true_iff. destruct (Qle_bool q q0) eqn:E; [|done].
  apply Qle_bool_iff in E. lra.
Qed.


(** *** [Math.max] *)

(** Over numbers none of which is NaN, the loop of [Math.max] returns an
    upper bound of its start value and of every argument. *)
Lemma max_loop_bound (xs : list number) (highest : number) :
  isNaN highest = false ->
  Forall (fun x => isNaN x = false) xs ->
  isNaN (max_loop highest xs) = false /\
  le highest (max_loop highest xs) = true /\
  Forall (fun x => le x (max_loop highest xs) = true) xs.
Proof.
  revert highest. induction xs as [|x xs IH]; intros highest Hh Hxs; simpl.
  - split; [done|]. split; [by apply le_refl|constructor].
  - inversion Hxs as [|? ? Hx Hxs']; subst. rewrite Hx.
    destruct (gt x highest) eqn:Hgt.
    + destruct (IH x Hx Hxs') as (Hn & Hle & Hall).
      split; [done|]. split; [|by constructor].
      eapply le_trans; [|exact Hle]. by apply gt_le.
    + destruct (IH highest Hh Hxs') as (Hn & Hle & Hall).
      split; [done|]. split; [done|]. constructor; [|done].
      eapply le_trans; [|exact Hle]. by apply not_gt_le.
Qed.

Lemma Math_max_empty rt : Math_max rt [] = NegInfinity.
Proof. reflexivity. Qed.

(** *** The overlap series *)

Lemma overlap_fold (cols : list DataViewMetadataColumn) (index : Z) :
  fold_left
    (fun index element =>
       if bool_decide (hasOverlapRole element) then col_index element else index)
    cols index
  = match last (filter hasOverlapRole cols) with
    | Some c => col_index c
    | None => index
    end.
Proof.
  revert index. induction cols as [|c cols IH]; intros index; simpl; [done|].
  rewrite IH, filter_cons. case_bool_decide as Hc.
  - rewrite decide_True by done. rewrite last_cons.
    by destruct (last (filter hasOverlapRole cols)).
  - by rewrite decide_False by done.
Qed.

Lemma overlap_search_find (vals : list DataViewValueColumn) (overlapIndex : Z)
    (i : nat) :
  match List.find (declaredAt overlapIndex) vals with
  | Some v =>
      ∃ k, overlap_search vals overlapIndex i = Z.of_nat (i + k) ∧
           vals !! k = Some v
  | None => overlap_search vals overlapIndex i = (-1)%Z
  end.
Proof.
  revert i. induction vals as [|v vals IH]; intros i; simpl; [done|].
  unfold declaredAt at 1. case_bool_decide as Hv.
  - exists 0%nat. split; [f_equal; lia|done].
  - specialize (IH (S i)).
    destruct (List.find (declaredAt overlapIndex) vals) as [w|]; [|done].
    destruct IH as (k & Hk & Hw). exists (S k).
    split; [rewrite Hk; f_equal; lia|done].
Qed.

Lemma getDataValueForOverlapValue_find (vals : list DataViewValueColumn)
    (overlapIndex : Z) :
  getDataValueForOverlapValue vals overlapIndex
  = Ok match List.find (declaredAt overlapIndex) vals with
       | Some v => val_values v
       | None => []
       end.
Proof.
  unfold getDataValueForOverlapValue.
  pose proof (overlap_search_find vals overlapIndex 0) as H.
  destruct (List.find (declaredAt overlapIndex) vals) as [v|].
  - destruct H as (k & -> & Hv). simpl.
    rewrite bool_decide_true by lia.
    rewrite Nat2Z.id, Hv. done.
  - rewrite H. by case_bool_decide.
Qed.

(** The builder never fails to determine its overlap series. *)
Lemma overlapSeries_Ok (md : DataViewMetadata) (vals : list DataViewValueColumn) :
  ∃ ov, overlapSeries md vals = Ok ov.
Proof.
  unfold overlapSeries. case_bool_decide; [|by eexists].
  rewrite getDataValueForOverlapValue_find. by eexists.
Qed.

Lemma getOverlapIndex_last (md : DataViewMetadata) :
  getOverlapIndex md
  = match last (filter hasOverlapRole (md_columns md)) with
    | Some c => col_index c
    | None => (-1)%Z
    end.
Proof.
  unfold getOverlapIndex. case_bool_decide as Hlen.
  - apply overlap_fold.
  - destruct (md_columns md); [done|]. simpl in Hlen. lia.
Qed.

(** Without a column in the overlap role the overlap series is empty. *)
Lemma overlapSeries_absent (md : DataViewMetadata) (vals : list DataViewValueColumn) :
  Forall (fun c => ¬ hasOverlapRole c) (md_columns md) ->
  overlapSeries md vals = Ok [].
Proof.
  intros Hno. unfold overlapSeries. rewrite getOverlapIndex_last.
  replace (filter hasOverlapRole (md_columns md)) with (@nil DataViewMetadataColumn).
  - reflexivity.
  - symmetry. induction Hno as [|c cols Hc _ IH]; [done|].
    by rewrite filter_cons_False.
Qed.

(** *** The builder on accepted inputs *)

Lemma rowLoop_map (c : BuildContext) (n i : nat) (acc : list IBarChartDataPoint) :
  rowLoop host c n i acc = acc ++ map (dataPointAt host c) (seq i n).
Proof.
  revert i acc. induction n as [|n IH]; intros i acc; simpl.
  - by rewrite app_nil_r.
  - rewrite IH, <- app_assoc. done.
Qed.

Lemma visualTransform_accepted options dv category0 vals dataValue ov :
  accepted options dv category0 vals dataValue ->
  overlapSeries (metadata dv) vals = Ok ov ->
  visualTransform host options
  = Ok {| dataMax := computeDataMax host (val_maxLocal dataValue) ov;
          dataPoints :=
            map (dataPointAt host (contextOf host dv category0 vals dataValue ov))
              (seq 0 (Nat.max (length (cat_values category0))
                              (length (val_values dataValue))));
          settings := Settings (readSettings host (md_objects (metadata dv)));
          widthMax := 0 |}.
Proof.
  intros (dvs & cat & cats & src & Hdvs & Hdv & Hcat & Hcats & Hc0 & Hsrc & Hvals & Hdata) Hov.
  unfold visualTransform.
  rewrite Hdvs, Hdv, Hcat, Hcats, Hc0. simpl. rewrite Hsrc, Hvals, Hov. simpl.
  rewrite Hdata. simpl. rewrite rowLoop_map. done.
Qed.

Lemma computeDataMax_ge_maxLocal (maxLocal : PrimitiveValue) (ov : list PrimitiveValue) :
  isNaN (ToNumber (runtime host) maxLocal) = false ->
  le (ToNumber (runtime host) maxLocal)
     (ToNumber (runtime host) (computeDataMax host maxLocal ov)) = true.
Proof.
  intros Hm. unfold computeDataMax.
  destruct (value_le _ maxLocal _) eqn:Hle.
  - destruct maxLocal; exact Hle.
  - by apply le_refl.
Qed.

Lemma computeDataMax_ge_overlap (maxLocal : PrimitiveValue) (ov : list PrimitiveValue) :
  isNaN (ToNumber (runtime host) maxLocal) = false ->
  Forall (fun v => isNaN (ToNumber (runtime host) v) = false) ov ->
  Forall (fun v => le (ToNumber (runtime host) v)
                      (ToNumber (runtime host) (computeDataMax host maxLocal ov)) = true)
         ov.
Proof.
  intros Hm Hov.
  assert (Forall (fun x => isNaN x = false) (map (ToNumber (runtime host)) ov)) as Hnum.
  { apply Forall_map. exact Hov. }
  destruct (max_loop_bound _ NegInfinity eq_refl Hnum) as (Hn & _ & Hall).
  apply Forall_map in Hall.
  unfold computeDataMax. fold (Math_max (runtime host) ov) in *.
  destruct (value_le _ maxLocal _) eqn:Hle; [exact Hall|].
  assert (le (ToNumber (runtime host) maxLocal) (Math_max (runtime host) ov) = false) as Hle'.
  { destruct maxLocal; exact Hle. }
  apply not_le_gt, gt_le in Hle'; [|done..].
  eapply Forall_impl; [exact Hall|]. simpl. intros v Hv.
  eapply le_trans; [exact Hv|exact Hle'].
Qed.

Lemma computeDataMax_no_overlap (maxLocal : PrimitiveValue) :
  ToNumber (runtime host) maxLocal <> NegInfinity ->
  computeDataMax host maxLocal [] = maxLocal.
Proof.
  intros Hm. unfold computeDataMax. rewrite Math_max_empty.
  destruct (value_le _ maxLocal _) eqn:Hle; [|done].
  exfalso. apply Hm.
  assert (le (ToNumber (runtime host) maxLocal) NegInfinity = true) as Hle'.
  { destruct maxLocal; exact Hle. }
  by destruct (ToNumber (runtime host) maxLocal).
Qed.

(** Against an empty overlap series the declared maximum is kept, but
    for a maximum that is -Infinity as a number: the test
    [maxLocal <= -Infinity] then holds and the number -Infinity is taken. *)
Lemma computeDataMax_empty (maxLocal : PrimitiveValue) :
  computeDataMax host maxLocal [] = maxLocal ∨
  (ToNumber (runtime host) maxLocal = NegInfinity ∧
   computeDataMax host maxLocal [] = PNumber NegInfinity).
Proof.
  unfold computeDataMax. rewrite Math_max_empty.
  destruct (value_le _ maxLocal _) eqn:Hle; [right|by left].
  assert (le (ToNumber (runtime host) maxLocal) NegInfinity = true) as Hle'.
  { destruct maxLocal; exact Hle. }
  split; [|done]. by destruct (ToNumber (runtime host) maxLocal).
Qed.

(** [dataMax] is one of the two numbers the builder compares. *)
Lemma computeDataMax_cases (maxLocal : PrimitiveValue) (ov : list PrimitiveValue) :
  computeDataMax host maxLocal ov = maxLocal ∨
  computeDataMax host maxLocal ov = PNumber (Math_max (runtime host) ov).
Proof. unfold computeDataMax. destruct (value_le _ _ _); [by right|by left]. Qed.

(** The gate of the builder: an input with a missing part is answered
    with the empty view model. *)
Lemma visualTransform_rejects_missing (options : VisualUpdateOptions) :
  (dataViews options = None ∨
   ∃ dvs, dataViews options = Some dvs ∧
     (dvs !! 0%nat = None ∨
      ∃ dv, dvs !! 0%nat = Some dv ∧
        (categorical dv = None ∨
         ∃ cat, categorical dv = Some cat ∧
           (categories cat = None ∨
            ∃ cats category0, categories cat = Some cats ∧
              cats !! 0%nat = Some category0 ∧
              (cat_source category0 = None ∨ values cat = None))))) ->
  visualTransform host options = Ok emptyViewModel.
Proof.
  unfold visualTransform.
  intros [->|(dvs & -> & [->|(dv & -> & [->|(cat & -> & [->|H])])])]; try done.
  destruct H as (cats & category0 & -> & -> & [H|H]); simpl; rewrite H; [done|].
  by destruct (cat_source category0).
Qed.

(** An empty [categories] array passes the test [!categories], and the
    gate then reads [categories[0].source]. *)
Lemma visualTransform_empty_categories options dvs dv cat :
  dataViews options = Some dvs -> dvs !! 0%nat = Some dv ->
  categorical dv = Some cat -> categories cat = Some [] ->
  visualTransform host options = TypeError.
Proof.
  intros H1 H2 H3 H4. unfold visualTransform. by rewrite H1, H2, H3, H4.
Qed.

(** An empty [values] array passes the test [!values], and the row loop
    then reads [dataValue.values.length]. *)
Lemma visualTransform_empty_values options dvs dv cat cats category0 src :
  dataViews options = Some dvs -> dvs !! 0%nat = Some dv ->
  categorical dv = Some cat -> categories cat = Some cats ->
  cats !! 0%nat = Some category0 -> cat_source category0 = Some src ->
  values cat = Some [] ->
  visualTransform host options = TypeError.
Proof.
  intros H1 H2 H3 H4 H5 H6 H7. unfold visualTransform.
  rewrite H1, H2, H3, H4, H5. simpl. rewrite H6, H7.
  destruct (overlapSeries_Ok (metadata dv) []) as (ov & ->). done.
Qed.

(** *** The claims about the builder *)

(** C1, as the code has it.  For every data view the builder accepts in
    which the overlap series is absent (no column carries the role) or
    empty, the builder returns a view model whose [dataMax] is, as a number,
    the declared maximum [dataValue.maxLocal] of the primary series, and is
    that very value unless the declared maximum is -Infinity as a number.
    The empty overlap series adds no -Infinity or NaN of its own: [dataMax]
    is -Infinity or NaN exactly when the declared maximum is. *)
Theorem dataMax_without_overlap options dv category0 vals dataValue :
  accepted options dv category0 vals dataValue ->
  (Forall (fun c => ¬ hasOverlapRole c) (md_columns (metadata dv)) ∨
   overlapSeries (metadata dv) vals = Ok []) ->
  ∃ vm, visualTransform host options = Ok vm ∧
        ToNumber (runtime host) (dataMax vm)
        = ToNumber (runtime host) (val_maxLocal dataValue) ∧
        (ToNumber (runtime host) (val_maxLocal dataValue) <> NegInfinity ->
         dataMax vm = val_maxLocal dataValue).
Proof.
  intros Hacc Hov.
  assert (overlapSeries (metadata dv) vals = Ok []) as Hov'.
  { destruct Hov as [Hno|Hov]; [by apply overlapSeries_absent|done]. }
  eexists. split; [by apply visualTransform_accepted|]. simpl.
  destruct (computeDataMax_empty (val_maxLocal dataValue)) as [->|[Hinf ->]].
  - done.
  - split; [by rewrite Hinf|]. intros Hne. by destruct Hne.
Qed.

(** C3, as the code has it.  For every data view the builder accepts,
    [dataMax] is the declared maximum [maxLocal] of the primary series or
    [Math.max] of the overlap series the builder found; the primary values
    themselves are not read.  [dataMax] is at least [maxLocal] when that
    is a number (not NaN), hence at least every primary value that
    [maxLocal] bounds; and when moreover no overlap value is NaN, [dataMax]
    is at least every overlap value.  Primary [10,20,30] with overlap
    [5,25,15] gives 30, and primary [10,20,10] with overlap [5,25,15]
    gives 25. *)
Theorem dataMax_bounds_both_series :
  (∀ options dv category0 vals dataValue,
     accepted options dv category0 vals dataValue ->
     ∃ vm ov,
       visualTransform host options = Ok vm ∧
       overlapSeries (metadata dv) vals = Ok ov ∧
       (dataMax vm = val_maxLocal dataValue ∨
        dataMax vm = PNumber (Math_max (runtime host) ov)) ∧
       (isNaN (ToNumber (runtime host) (val_maxLocal dataValue)) = false ->
        le (ToNumber (runtime host) (val_maxLocal dataValue))
           (ToNumber (runtime host) (dataMax vm)) = true) ∧
       (Forall (fun v => le (ToNumber (runtime host) v)
                            (ToNumber (runtime host) (val_maxLocal dataValue)) = true)
               (val_values dataValue) ->
        Forall (fun v => le (ToNumber (runtime host) v)
                            (ToNumber (runtime host) (dataMax vm)) = true)
               (val_values dataValue)) ∧
       (isNaN (ToNumber (runtime host) (val_maxLocal dataValue)) = false ->
        Forall (fun v => isNaN (ToNumber (runtime host) v) = false) ov ->
        Forall (fun v => le (ToNumber (runtime host) v)
                            (ToNumber (runtime host) (dataMax vm)) = true)
               ov)) ∧
  (∃ vm, visualTransform host
           (sampleOptions [PString "A"; PString "B"; PString "C"]
              [num 10; num 20; num 30] (num 30)
              (Some [num 5; num 25; num 15]) 300) = Ok vm ∧
         dataMax vm = num 30) ∧
  (∃ vm, visualTransform host
           (sampleOptions [PString "A"; PString "B"; PString "C"]
              [num 10; num 20; num 10] (num 20)
              (Some [num 5; num 25; num 15]) 300) = Ok vm ∧
         dataMax vm = num 25).
Proof.
  split; [|split].
  - intros options dv category0 vals dataValue Hacc.
    destruct (overlapSeries_Ok (metadata dv) vals) as (ov & Hov).
    eexists; exists ov. split; [by apply visualTransform_accepted|].
    split; [done|]. simpl.
    split; [apply computeDataMax_cases|].
    split; [apply computeDataMax_ge_maxLocal|]. split.
    + intros Hprimary. destruct (val_values dataValue) as [|v0 vs] eqn:Hvs; [constructor|].
      assert (isNaN (ToNumber (runtime host) (val_maxLocal dataValue)) = false) as Hm.
      { inversion Hprimary as [|? ? H0 _]; subst. by apply le_not_NaN in H0 as [_ ?]. }
      eapply Forall_impl; [exact Hprimary|]. simpl. intros v Hv.
      eapply le_trans; [exact Hv|]. by apply computeDataMax_ge_maxLocal.
    + intros Hm Hnum. by apply computeDataMax_ge_overlap.
  - eexists. split; [reflexivity|]. reflexivity.
  - eexists. split; [reflexivity|]. reflexivity.
Qed.

(** C4, as the code has it.  For every data view the builder accepts,
    the number of data points is the larger of the category-row count and
    the primary-value-row count; row [i] holds the primary value and the
    stringified category value read at [i]; so past the end of the primary
    series the [value] field is [undefined], and past the end of the
    category series the [category] field is the string "undefined". *)
Theorem dataPoints_cover_longer_series options dv category0 vals dataValue :
  accepted options dv category0 vals dataValue ->
  ∃ vm,
    visualTransform host options = Ok vm ∧
    length (dataPoints vm)
    = Nat.max (length (cat_values category0)) (length (val_values dataValue)) ∧
    (∀ i d, dataPoints vm !! i = Some d ->
       value d = array_get (val_values dataValue) i ∧
       category d = ToString (runtime host) (array_get (cat_values category0) i)) ∧
    (∀ i d, dataPoints vm !! i = Some d ->
       (length (val_values dataValue) <= i)%nat -> value d = PUndefined) ∧
    (∀ i d, dataPoints vm !! i = Some d ->
       (length (cat_values category0) <= i)%nat -> category d = "undefined").
Proof.
  intros Hacc.
  destruct (overlapSeries_Ok (metadata dv) vals) as (ov & Hov).
  eexists. split; [by apply visualTransform_accepted|]. simpl.
  assert (∀ i d,
    map (dataPointAt host (contextOf host dv category0 vals dataValue ov))
      (seq 0 (Nat.max (length (cat_values category0))
                      (length (val_values dataValue)))) !! i = Some d ->
    d = dataPointAt host (contextOf host dv category0 vals dataValue ov) i) as Hrow.
  { intros i d Hd. change (map ?f ?l) with (f <$> l) in Hd.
    rewrite list_lookup_fmap in Hd.
    destruct (seq _ _ !! i) as [j|] eqn:Hj; [|done].
    apply lookup_seq in Hj as [-> _]. simpl in Hd. congruence. }
  split; [by rewrite length_map, length_seq|].
  split; [|split].
  - intros i d Hd. by rewrite (Hrow i d Hd).
  - intros i d Hd Hi. rewrite (Hrow i d Hd). simpl.
    unfold array_get. by rewrite lookup_ge_None_2.
  - intros i d Hd Hi. rewrite (Hrow i d Hd). simpl.
    unfold array_get. by rewrite lookup_ge_None_2.
Qed.

(** C5, on inputs the claim covers.  A data view whose [categories]
    array is empty lacks a category column, yet the builder does not return
    the empty view model for it: the gate reads [categories[0].source] and
    raises.  The sample with no category column is such an input. *)
Theorem visualTransform_raises_without_category_column :
  (∀ options dvs dv cat,
     dataViews options = Some dvs -> dvs !! 0%nat = Some dv ->
     categorical dv = Some cat -> categories cat = Some [] ->
     visualTransform host options = TypeError) ∧
  visualTransform host noCategoryColumn = TypeError ∧
  visualTransform host noCategoryColumn <> Ok emptyViewModel.
Proof.
  split; [apply visualTransform_empty_categories|].
  assert (visualTransform host noCategoryColumn = TypeError) as Hraise.
  { by eapply visualTransform_empty_categories. }
  split; [exact Hraise|]. rewrite Hraise. discriminate.
Qed.

(** C10. [getOverlapIndex] returns the declared index of the last
    metadata column that carries the overlap role, in metadata order, and
    [-1] when no column does; [getDataValueForOverlapValue] returns,
    without raising, the values of the first value column whose source
    index is the given one, and the empty array when there is none. *)
Theorem overlap_index_is_last_and_values_are_first :
  (∀ md,
     getOverlapIndex md
     = match last (filter hasOverlapRole (md_columns md)) with
       | Some c => col_index c
       | None => (-1)%Z
       end) ∧
  (∀ vals overlapIndex,
     getDataValueForOverlapValue vals overlapIndex
     = Ok match List.find (declaredAt overlapIndex) vals with
          | Some v => val_values v
          | None => []
          end).
Proof.
  split.
  - apply getOverlapIndex_last.
  - apply getDataValueForOverlapValue_find.
Qed.

(** *** The row of the largest value *)









(** *** Font size *)

Lemma Qgtb_true (a b : Q) : Qgtb a b = true -> (b < a)%Q.
Proof. unfold Qgtb. intros H. by apply negb_true_iff, Qle_bool_false in H. Qed.

Lemma Qgtb_false (a b : Q) : Qgtb a b = false -> (a <= b)%Q.
Proof. unfold Qgtb. intros H. by apply negb_false_iff, Qle_bool_iff in H. Qed.

Lemma fontSizeToUse_auto (s : IBarChartSettings) (bandwidth : Q) :
  fp_show (fontParams s) = false ->
  ∃ f, fontSizeToUse (Settings s) bandwidth = Ok f ∧
       (f == clampFont (bandwidth / Config.fontScaleFactor))%Q.
Proof.
  intros Hshow. unfold fontSizeToUse, clampFont. simpl. rewrite Hshow. simpl.
  set (x := (bandwidth / Config.fontScaleFactor)%Q).
  pose proof (Q.min_spec 40 x) as Hmin.
  pose proof (Q.max_spec 8.5 (Qmin 40 x)) as Hmax.
  set (m := Qmin 40 x) in *. set (M := Qmax 8.5 m) in *.
  destruct (Qgtb 8.5 x) eqn:H1; simpl; rewrite ?Hshow; simpl.
  - apply Qgtb_true in H1.
    destruct (Qgtb 8.5 40) eqn:H2; [apply Qgtb_true in H2; lra|].
    eexists. split; [done|]. lra.
  - apply Qgtb_false in H1.
    destruct (Qgtb x 40) eqn:H2; simpl; rewrite ?Hshow; simpl;
      (eexists; split; [done|]);
      [apply Qgtb_true in H2|apply Qgtb_false in H2]; lra.
Qed.

Lemma fontSizeToUse_fixed (s : IBarChartSettings) (bandwidth : Q) :
  fp_show (fontParams s) = true ->
  fontSizeToUse (Settings s) bandwidth = Ok (fp_fontSize (fontParams s)).
Proof.
  intros Hshow. unfold fontSizeToUse. simpl. rewrite Hshow.
  destruct (Qgtb 8.5 _); simpl; rewrite ?Hshow; simpl;
    destruct (Qgtb _ 40); simpl; rewrite ?Hshow; done.
Qed.

(** C6. In every update pass with populated settings: when
    [fontParams.show] is false the font size used is a third of the band
    width clamped into [[8.5, 40]]; when it is true the font size used is
    the user's value, unclamped. *)
Theorem fontSize_clamped_unless_fixed
    (viewModel : @IBarChartViewModel SelectionId) (s : IBarChartSettings)
    (viewportHeight : Q) :
  settings viewModel = Settings s ->
  (fp_show (fontParams s) = false ->
   ∃ f, updateFontSize viewModel viewportHeight = Ok f ∧
        (f == clampFont
                (D3.bandwidth (ly_yScale (layout viewModel viewportHeight)) / 3))%Q ∧
        (8.5 <= f <= 40)%Q) ∧
  (fp_show (fontParams s) = true ->
   updateFontSize viewModel viewportHeight = Ok (fp_fontSize (fontParams s))).
Proof.
  intros Hs. unfold updateFontSize. rewrite Hs. split.
  - intros Hshow.
    destruct (fontSizeToUse_auto s
                (D3.bandwidth (ly_yScale (layout viewModel viewportHeight))) Hshow)
      as (f & Hf & Hclamp).
    exists f. split; [done|]. split; [done|].
    rewrite Hclamp. unfold clampFont. split.
    + apply Q.le_max_l.
    + apply Q.max_lub; [lra|apply Q.le_min_l].
  - apply fontSizeToUse_fixed.
Qed.

(** *** Selection *)

Lemma isSelectionIdInArray_contained (S : list SelectionId) (id : option SelectionId) :
  isSelectionIdInArray host (Some S) id = true <-> containedIn host id S.
Proof.
  unfold isSelectionIdInArray, containedIn. destruct id as [i|].
  - rewrite existsb_exists. split.
    + intros (cur & Hin & Hinc). by exists i, cur.
    + intros (i' & cur & [= <-] & Hin & Hinc). by exists cur.
  - split; [done|]. by intros (i & cur & ? & _).
Qed.

(** C7. After [syncSelectionState] has run with a selection-id array
    [S] over the rendered rows, the rows are the same and for every row:
    the fill is solid exactly when the row's identity is contained in [S]
    or [S] is empty; with [S] empty the inline style is removed, a
    contained row has opacity [1], and any other row has opacity [0.5]. *)
Theorem syncSelectionState_opacity (bars : list Bar) (S : list SelectionId) :
  ∃ bars',
    syncSelectionState host (Some bars) (Some S) = Some bars' ∧
    map datum bars' = map datum bars ∧
    ∀ i b', bars' !! i = Some b' ->
      (solid (fillOpacity b') <-> containedIn host (selectionId (datum b')) S ∨ S = []) ∧
      (S = [] -> fillOpacity b' = None) ∧
      (S <> [] -> containedIn host (selectionId (datum b')) S ->
       fillOpacity b' = Some Config.solidOpacity) ∧
      (¬ (containedIn host (selectionId (datum b')) S ∨ S = []) ->
       fillOpacity b' = Some Config.transparentOpacity).
Proof.
  unfold syncSelectionState. case_bool_decide as Hlen.
  - assert (S = []) as -> by (by destruct S).
    eexists. split; [done|]. split.
    { rewrite map_map. done. }
    intros i b' Hb'. change (map ?f ?l) with (f <$> l) in Hb'.
    apply list_lookup_fmap_Some in Hb' as (b & -> & Hb). simpl.
    split; [|split; [done|split; [done|]]].
    + split; [by right|by left].
    + intros H. exfalso. apply H. by right.
  - assert (S <> []) as Hne by (intros ->; done).
    eexists. split; [done|]. split.
    { rewrite map_map. done. }
    intros i b' Hb'. change (map ?f ?l) with (f <$> l) in Hb'.
    apply list_lookup_fmap_Some in Hb' as (b & -> & Hb).
    cbn [fillOpacity setFillOpacity datum].
    pose proof (isSelectionIdInArray_contained S (selectionId (datum b))) as Hc.
    destruct (isSelectionIdInArray host (Some S) (selectionId (datum b))).
    + assert (containedIn host (selectionId (datum b)) S) as Hin by (by apply Hc).
      split; [|split; [by intros ?|split; [done|]]].
      * split; [by left|by right].
      * intros H. exfalso. apply H. by left.
    + assert (¬ containedIn host (selectionId (datum b)) S) as Hout.
      { intros H. apply Hc in H. done. }
      split; [|split; [by intros ?|split; [by intros ? ?|done]]].
      split.
      * intros [H|H]; [done|]. exfalso. by vm_compute in H.
      * intros [H|H]; done.
Qed.

(** *** The layout *)

Lemma domain_from_length (seen names : list string) :
  (length (D3.domain_from seen names) <= length names)%nat.
Proof.
  revert seen. induction names as [|x names IH]; intros seen; simpl; [lia|].
  case_bool_decide.
  - specialize (IH seen). lia.
  - specialize (IH (x :: seen)). simpl. lia.
Qed.

(** With at most two rows and a positive viewport height, an even
    distribution exceeds a third of the height: [update] takes the branch
    [calcX > xScaledMax], which leaves the drawing height alone. *)
Lemma layout_few_rows_keeps_height (viewModel : @IBarChartViewModel SelectionId)
    (H : Q) :
  (0 < H)%Q -> (length (dataPoints viewModel) <= 2)%nat ->
  ly_height (layout viewModel H) = H.
Proof.
  intros HH Hn. unfold layout. cbn [ly_height].
  set (len := inject_Z (Z.of_nat (length (dataPoints viewModel)))).
  assert (0 <= len <= 2)%Q as Hlen.
  { unfold len. split.
    - change 0%Q with (inject_Z 0). rewrite <- Zle_Qle. lia.
    - change 2%Q with (inject_Z 2). rewrite <- Zle_Qle. lia. }
  unfold fitRows.
  assert (Qgtb (H / (2 * Config.outerPaddingScale - Config.xScalePadding + len))
               (H / Config.maxHeightScale) = true) as ->.
  { unfold Qgtb. apply negb_true_iff.
    destruct (Qle_bool _ _) eqn:E; [|done]. exfalso.
    apply Qle_bool_iff in E.
    set (d := (2 * Config.outerPaddingScale - Config.xScalePadding + len)%Q) in *.
    assert (0 < d < 3)%Q as Hd.
    { unfold d, Config.outerPaddingScale, Config.xScalePadding. lra. }
    assert (d * (H / d) == H)%Q as Hq by (apply Qmult_div_r; lra).
    unfold Config.maxHeightScale in E.
    assert (3 * (H / 3) == H)%Q as Hq3 by (apply Qmult_div_r; lra).
    set (q := (H / d)%Q) in *. set (q3 := (H / 3)%Q) in *.
    nra. }
  destruct (Qle_bool _ _); done.
Qed.

(** In the other branch [update] grows the drawing height to [calcHeight]
    when an even distribution falls below the minimum. *)
Lemma layout_grows_surface (viewModel : @IBarChartViewModel SelectionId) (H : Q) :
  let L := layout viewModel H in
  (ly_calcX L <= ly_xScaledMax L)%Q ->
  (ly_calcX L < ly_xScaledMin L)%Q -> (H < ly_calcHeight L)%Q ->
  ly_height L = ly_calcHeight L.
Proof.
  intros L H1 H2 H3. subst L. unfold layout in *. cbn [ly_height ly_calcX ly_xScaledMax ly_xScaledMin ly_calcHeight] in *.
  unfold fitRows.
  apply Qle_bool_iff in H1. unfold Qgtb at 1. rewrite H1. cbn [negb].
  assert (∀ a b, (a < b)%Q -> Qgtb b a = true) as Hgt.
  { intros a b Hab. unfold Qgtb. apply negb_true_iff.
    destruct (Qle_bool b a) eqn:E; [|done]. apply Qle_bool_iff in E. lra. }
  rewrite (Hgt _ _ H2), (Hgt _ _ H3). done.
Qed.

Lemma floor_above_integer (m : Z) (x : Q) :
  (inject_Z m <= x)%Q -> (inject_Z m <= D3.floor x)%Q.
Proof.
  intros Hx. unfold D3.floor. rewrite <- Zle_Qle.
  rewrite <- (Qfloor_Z m). by apply Qfloor_resp_le.
Qed.

(** The step of a band scale never exceeds the length of its range. *)
Lemma step_at_most_range (names : list string) (r0 r1 paddingInner paddingOuter : Q) :
  (r0 <= r1)%Q ->
  (D3.step (D3.scaleBand names r0 r1 paddingInner paddingOuter) <= r1 - r0)%Q.
Proof.
  intros Hr. unfold D3.scaleBand. cbn [D3.step].
  assert (Qle_bool r0 r1 = true) as -> by (by apply Qle_bool_iff).
  cbn [negb].
  set (d := D3.max 1 _).
  assert (1 <= d)%Q as Hd.
  { unfold d, D3.max. destruct (Qle_bool 1 _) eqn:E; [by apply Qle_bool_iff in E|lra]. }
  unfold D3.floor. eapply Qle_trans; [apply Qfloor_le|].
  apply Qle_shift_div_r; [lra|]. nra.
Qed.

Lemma max_one (a : Q) : (1 <= D3.max 1 a)%Q /\ (a <= D3.max 1 a)%Q /\
  (D3.max 1 a == 1 \/ D3.max 1 a == a)%Q.
Proof.
  unfold D3.max. destruct (Qle_bool 1 a) eqn:E.
  - apply Qle_bool_iff in E. split; [done|]. split; [lra|right; reflexivity].
  - apply Qle_bool_false in E. split; [lra|]. split; [lra|left; reflexivity].
Qed.

(** From three rows on, with a whole-number minimum of at least 13 (the
    built-in 30, or a fixed bar height in its valid range), every slot the
    band scale produces is at least the minimum; the drawing height is the
    viewport height or [calcHeight]. *)
Lemma layout_three_rows_respects_floor (viewModel : @IBarChartViewModel SelectionId)
    (H : Q) (m : Z) :
  (0 <= H)%Q -> (3 <= length (dataPoints viewModel))%nat ->
  (ly_xScaledMin (layout viewModel H) == inject_Z m)%Q -> (13 <= m)%Z ->
  (ly_xScaledMin (layout viewModel H)
   <= D3.step (ly_yScale (layout viewModel H)))%Q /\
  (ly_height (layout viewModel H) = H \/
   ly_height (layout viewModel H) = ly_calcHeight (layout viewModel H)).
Proof.
  intros HH Hn Hmin Hm. unfold layout in *.
  cbn [ly_height ly_xScaledMin ly_calcHeight ly_yScale] in *.
  set (xmin := resolve_xScaledMin (settings viewModel)) in *.
  set (len := inject_Z (Z.of_nat (length (dataPoints viewModel)))).
  assert (3 <= len)%Q as Hlen.
  { unfold len. change 3%Q with (inject_Z 3). rewrite <- Zle_Qle. lia. }
  assert (13 <= xmin)%Q as Hxmin.
  { rewrite Hmin. change 13%Q with (inject_Z 13). by rewrite <- Zle_Qle. }
  set (calcX := (H / (2 * Config.outerPaddingScale - Config.xScalePadding + len))%Q).
  set (calcHeight := ((- (2) * - (0.1) - Config.xScalePadding + len) * xmin)%Q).
  assert (calcHeight == (len + 0.05) * xmin)%Q as HcalcH.
  { unfold calcHeight, Config.xScalePadding. ring. }
  assert ((len + 0.85) * calcX == H)%Q as HcalcX.
  { assert ((2 * Config.outerPaddingScale - Config.xScalePadding + len) * calcX == H)%Q
      as Hq.
    { apply Qmult_div_r. unfold Config.outerPaddingScale, Config.xScalePadding. lra. }
    unfold Config.outerPaddingScale, Config.xScalePadding in Hq.
    set (q := calcX) in *. nra. }
  assert (3 * (H / Config.maxHeightScale) == H)%Q as Hmax.
  { unfold Config.maxHeightScale. apply Qmult_div_r. lra. }
  unfold fitRows.
  assert (Qgtb calcX (H / Config.maxHeightScale) = false) as ->.
  { unfold Qgtb. apply negb_false_iff, Qle_bool_iff.
    set (q3 := (H / Config.maxHeightScale)%Q) in *. nra. }
  (* the drawing height [h] and what is known about it *)
  assert (∃ h, (if Qgtb xmin calcX && Qgtb calcHeight H
                then ((- (0.1))%Q, calcHeight) else ((- (0.1))%Q, H)) = ((- (0.1))%Q, h) ∧
               ((len + 0.05) * xmin <= h)%Q ∧ (h = H ∨ h = calcHeight)) as (h & -> & Hh & Hcase).
  { destruct (Qgtb xmin calcX) eqn:E1; [destruct (Qgtb calcHeight H) eqn:E2|]; simpl.
    - exists calcHeight. split; [done|]. split; [lra|by right].
    - exists H. split; [done|]. apply Qgtb_false in E2. split; [lra|by left].
    - exists H. split; [done|]. apply Qgtb_false in E1. split; [nra|by left]. }
  cbn [fst snd]. split; [|done].
  unfold D3.scaleBand. cbn [D3.step].
  assert (Qle_bool 5 h = true) as ->.
  { apply Qle_bool_iff. nra. }
  cbn [negb].
  set (n := inject_Z (Z.of_nat (length (D3.domain_from [] (map category (dataPoints viewModel)))))).
  assert (0 <= n <= len)%Q as Hnle.
  { unfold n, len. pose proof (domain_from_length [] (map category (dataPoints viewModel))) as Hd.
    rewrite length_map in Hd. split.
    - change 0%Q with (inject_Z 0). rewrite <- Zle_Qle. lia.
    - rewrite <- Zle_Qle. lia. }
  rewrite Hmin. apply floor_above_integer. rewrite <- Hmin.
  assert (D3.paddingInner_of Config.barPadding == 0.15)%Q as Hpi by reflexivity.
  destruct (max_one (n - D3.paddingInner_of Config.barPadding + - (0.1) * 2)) as (H1 & _ & Hd).
  set (d := D3.max 1 (n - D3.paddingInner_of Config.barPadding + - (0.1) * 2)) in *.
  apply Qle_shift_div_l; [lra|].
  destruct Hd as [Hd|Hd]; rewrite Hd; nra.
Qed.
(** *** The format pane *)

(** Two objects written with their keys in different orders are the same
    object: they agree at every key. *)
Ltac same_object :=
  apply map_eq; intros ?;
  repeat (rewrite lookup_insert || rewrite lookup_delete
          || rewrite lookup_singleton || rewrite lookup_empty);
  repeat case_decide; simplify_eq; done.

(** C8, as the code has it.  After an update has applied the settings
    [s], for each of the eight object names the format pane receives one
    instance, named as requested.  For [fontParams], [showBarLabels],
    [alignBarLabels], [barShape], [barHeight], [experimental] and
    [clearFilters] its property bag is the sub-object of [s] of that name;
    for [generalView] it is that sub-object without [minHeight] and
    [barHeight]: the bag reports [barsColor], [opacity], [overlapColor] and
    [textColor] only. *)
Theorem enumerateObjectInstances_reports_settings
    (viewModel : @IBarChartViewModel SelectionId) (s : IBarChartSettings)
    (objectName : string) :
  settings viewModel = Settings s ->
  In objectName paneObjects ->
  ∃ inst sub,
    enumerateObjectInstances (applySettings viewModel) objectName = Ok [inst] ∧
    voi_objectName inst = objectName ∧
    subObject s objectName = Some sub ∧
    voi_properties inst
    = if String.eqb objectName "generalView"
      then delete "minHeight" (delete "barHeight" sub)
      else sub.
Proof.
  intros Hs Hin. unfold applySettings. rewrite Hs.
  simpl in Hin.
  destruct Hin as [<-|[<-|[<-|[<-|[<-|[<-|[<-|[<-|[]]]]]]]]];
    (eexists; eexists; split; [reflexivity|]; split; [reflexivity|];
     split; [reflexivity|]);
    cbn [String.eqb Ascii.eqb Bool.eqb voi_properties]; same_object.
Qed.

End Properties.

(** ** The layout on two rows in a short viewport *)

(** C2, on an input the claim covers.  With two rows, the default
    settings (a fixed bar height of 30) and a viewport 20 high, [update]
    takes the branch [calcX > xScaledMax]: the drawing height stays 20, not
    [calcHeight] = 61.5, and the band scale's step is 9, below the minimum
    of 30. *)
Theorem layout_two_rows_short_viewport :
  ∃ vm, visualTransform plainHost twoRows = Ok vm ∧
        length (dataPoints vm) = 2%nat ∧
        let L := layout vm (vp_height (viewport twoRows)) in
        (ly_xScaledMin L == 30)%Q ∧
        (ly_calcHeight L == 61.5)%Q ∧
        (ly_height L == 20)%Q ∧
        (D3.step (ly_yScale L) == 9)%Q ∧
        (D3.step (ly_yScale L) < ly_xScaledMin L)%Q ∧
        ¬ (ly_height L == ly_calcHeight L)%Q.
Proof.
  eexists. split; [reflexivity|]. split; [reflexivity|].
  vm_compute. repeat split; try reflexivity. intros H. discriminate H.
Qed.

(** ** Inputs on which claims fail as stated *)

(** C1 as stated fails here: without an overlap series, [dataMax] is
    [undefined], NaN as a number, when the primary series declares no
    maximum, and it is -Infinity when the declared maximum is. *)
Lemma dataMax_follows_declared_maximum :
  overlapSeries
    (metadata (sampleDataView [PString "A"; PString "B"] [num 10; num 20]
                 PUndefined None))
    (sampleSeries [num 10; num 20] PUndefined None) = Ok [] ∧
  (∃ vm, visualTransform plainHost undeclaredMaximum = Ok vm ∧
         dataMax vm = PUndefined ∧
         ToNumber plainRuntime (dataMax vm) = NaN) ∧
  (∃ vm, visualTransform plainHost infiniteMaximum = Ok vm ∧
         dataMax vm = PNumber NegInfinity).
Proof.
  split; [reflexivity|]. split.
  - eexists. split; [reflexivity|]. split; reflexivity.
  - eexists. split; reflexivity.
Qed.

(** C3 as stated fails here: with a declared maximum of 5 over the primary
    values [10, 20], [dataMax] is 5, below the primary value 20; and with
    the overlap series [50, undefined], [dataMax] is the declared maximum
    30, below the overlap value 50. *)
Lemma dataMax_below_series_value :
  (∃ vm, visualTransform plainHost lowMaximum = Ok vm ∧
         dataMax vm = num 5 ∧
         le (ToNumber plainRuntime (num 20)) (ToNumber plainRuntime (dataMax vm))
         = false) ∧
  (∃ vm, visualTransform plainHost holedOverlap = Ok vm ∧
         dataMax vm = num 30 ∧
         le (ToNumber plainRuntime (num 50)) (ToNumber plainRuntime (dataMax vm))
         = false).
Proof.
  split; eexists; (split; [reflexivity|]); split; reflexivity.
Qed.


(** C4 as stated fails here: with one primary value and no category row,
    row [0] lies past the end of the category series, and its [category]
    field holds the string "undefined", which is not the value
    [undefined]. *)
Lemma category_past_end_is_text :
  ∃ vm d, visualTransform plainHost noCategoryRow = Ok vm ∧
          length (dataPoints vm) = 1%nat ∧
          dataPoints vm !! 0%nat = Some d ∧
          category d = "undefined" ∧
          PString (category d) <> PUndefined.
Proof.
  eexists. eexists. split; [reflexivity|]. split; [reflexivity|].
  split; [reflexivity|]. split; [reflexivity|]. discriminate.
Qed.

(** C8 as stated fails here: for [generalView] the property bag has no
    [minHeight] (nor [barHeight]), while the sub-object of the settings
    has. *)
Lemma generalView_bag_omits_heights :
  ∃ inst sub,
    enumerateObjectInstances (Some (Settings defaultSettings)) "generalView"
    = Ok [inst] ∧
    subObject defaultSettings "generalView" = Some sub ∧
    voi_properties inst !! "minHeight" = None ∧
    sub !! "minHeight" = Some (VNumber 250) ∧
    voi_properties inst <> sub.
Proof.
  eexists. eexists. split; [reflexivity|]. split; [reflexivity|].
  cbn [voi_properties].
  assert (({[ "barsColor" := VFill (gv_barsColor (generalView defaultSettings));
              "opacity" := VNumber (gv_opacity (generalView defaultSettings));
              "overlapColor" := VFill (gv_overlapColor (generalView defaultSettings));
              "textColor" := VFill (gv_textColor (generalView defaultSettings)) ]}
           : gmap string PropertyValue) !! "minHeight" = None) as Hnone.
  { repeat (rewrite lookup_insert_ne by done). apply lookup_singleton_ne. done. }
  split; [exact Hnone|]. split; [apply lookup_insert_eq|].
  intros E. rewrite E in Hnone. rewrite lookup_insert_eq in Hnone. done.
Qed.

(** ** The theorems at sample inputs *)

(** A sample passes the gate: its parts are read off by computation. *)
Ltac accept_sample := unfold accepted; do 4 eexists; repeat split; reflexivity.

Lemma dataMax_without_overlap_witness :
  accepted twoRows
    (sampleDataView [PString "A"; PString "B"] [num 10; num 20] (num 20) None)
    (sampleCategory [PString "A"; PString "B"])
    (sampleSeries [num 10; num 20] (num 20) None)
    (primarySeries [num 10; num 20] (num 20)) ∧
  ∃ vm, visualTransform plainHost twoRows = Ok vm ∧ dataMax vm = num 20.
Proof.
  assert (accepted twoRows
            (sampleDataView [PString "A"; PString "B"] [num 10; num 20] (num 20) None)
            (sampleCategory [PString "A"; PString "B"])
            (sampleSeries [num 10; num 20] (num 20) None)
            (primarySeries [num 10; num 20] (num 20))) as Hacc.
  { accept_sample. }
  split; [exact Hacc|].
  destruct (dataMax_without_overlap plainHost _ _ _ _ _ Hacc) as (vm & Hvm & _ & Hsame).
  - right. reflexivity.
  - exists vm. split; [exact Hvm|]. apply Hsame. discriminate.
Defined.

Lemma dataMax_bounds_both_series_witness :
  ∃ vm, visualTransform plainHost threeRows = Ok vm ∧
        Forall (fun v => le (ToNumber plainRuntime v)
                            (ToNumber plainRuntime (dataMax vm)) = true)
               [num 10; num 20; num 30] ∧
        Forall (fun v => le (ToNumber plainRuntime v)
                            (ToNumber plainRuntime (dataMax vm)) = true)
               [num 5; num 25; num 15].
Proof.
  destruct (dataMax_bounds_both_series plainHost) as [H _].
  destruct (H threeRows
              (sampleDataView [PString "A"; PString "B"; PString "C"]
                 [num 10; num 20; num 30] (num 30) (Some [num 5; num 25; num 15]))
              (sampleCategory [PString "A"; PString "B"; PString "C"])
              (sampleSeries [num 10; num 20; num 30] (num 30)
                 (Some [num 5; num 25; num 15]))
              (primarySeries [num 10; num 20; num 30] (num 30)))
    as (vm & ov & Hvm & Hov & _ & _ & Hprimary & Hoverlap).
  { accept_sample. }
  assert (Ok ov = Ok [num 5; num 25; num 15]) as [= ->]
    by (rewrite <- Hov; reflexivity).
  exists vm. split; [exact Hvm|]. split.
  - apply Hprimary. repeat constructor.
  - apply Hoverlap; [reflexivity|]. repeat constructor.
Defined.

Lemma dataPoints_cover_longer_series_witness :
  ∃ vm, visualTransform plainHost shortCategories = Ok vm ∧
        length (dataPoints vm) = 3%nat ∧
        (∀ i d, dataPoints vm !! i = Some d -> (3 <= i)%nat -> value d = PUndefined) ∧
        (∀ i d, dataPoints vm !! i = Some d -> (1 <= i)%nat -> category d = "undefined").
Proof.
  destruct (dataPoints_cover_longer_series plainHost shortCategories
              (sampleDataView [PString "A"] [num 10; num 20; num 30] (num 30) None)
              (sampleCategory [PString "A"])
              (sampleSeries [num 10; num 20; num 30] (num 30) None)
              (primarySeries [num 10; num 20; num 30] (num 30)))
    as (vm & Hvm & Hlen & _ & Hvalue & Hcategory).
  { accept_sample. }
  exists vm. split; [exact Hvm|]. split; [exact Hlen|]. split.
  - exact Hvalue.
  - exact Hcategory.
Defined.

Lemma fontSize_clamped_unless_fixed_witness :
  (∃ f, updateFontSize (modelOf threeRows) 300 = Ok f ∧ (8.5 <= f <= 40)%Q) ∧
  updateFontSize fixedFontModel 300 = Ok 50%Q.
Proof.
  split.
  - destruct (fontSize_clamped_unless_fixed (modelOf threeRows) defaultSettings 300
                eq_refl) as [Hauto _].
    destruct (Hauto eq_refl) as (f & Hf & _ & Hrange).
    exists f. split; [exact Hf|exact Hrange].
  - destruct (fontSize_clamped_unless_fixed fixedFontModel fixedFontSettings 300
                eq_refl) as [_ Hfixed].
    exact (Hfixed eq_refl).
Defined.

Lemma syncSelectionState_opacity_witness :
  ∃ bars',
    syncSelectionState plainHost
      (Some (render (dataPoints (modelOf threeRows)))) (Some [1%nat]) = Some bars' ∧
    ∀ i b', bars' !! i = Some b' ->
      (solid (fillOpacity b') <->
       containedIn plainHost (selectionId (datum b')) [1%nat] ∨ [1%nat] = []).
Proof.
  destruct (syncSelectionState_opacity plainHost
              (render (dataPoints (modelOf threeRows))) [1%nat])
    as (bars' & Hsync & _ & Hrows).
  exists bars'. split; [exact Hsync|].
  intros i b' Hb'. exact (proj1 (Hrows i b' Hb')).
Defined.

Lemma enumerateObjectInstances_reports_settings_witness :
  ∃ inst sub,
    enumerateObjectInstances (applySettings (modelOf threeRows)) "barHeight" = Ok [inst] ∧
    voi_objectName inst = "barHeight" ∧
    subObject defaultSettings "barHeight" = Some sub ∧
    voi_properties inst = sub.
Proof.
  apply (enumerateObjectInstances_reports_settings (modelOf threeRows)
           defaultSettings "barHeight" eq_refl).
  simpl. tauto.
Defined.


Lemma visualTransform_raises_without_category_column_witness :
  visualTransform plainHost noCategoryColumn = TypeError.
Proof.
  destruct (visualTransform_raises_without_category_column plainHost) as [H _].
  eapply (H noCategoryColumn); reflexivity.
Defined.

(** ** Further properties of the builder *)

Section BuilderProperties.

Context {SelectionId : Type} (host : @Host SelectionId).

Local Open Scope list_scope.

Lemma getMetadataIndexFor_from_spec (displayName : string)
    (cols : list DataViewMetadataColumn) (i : nat) :
  ∃ k, getMetadataIndexFor_from displayName cols i = (i + k)%nat ∧
       (k <= length cols)%nat ∧
       (∀ j c, (j < k)%nat -> cols !! j = Some c -> col_displayName c <> displayName) ∧
       ((k < length cols)%nat ->
        ∃ c, cols !! k = Some c ∧ col_displayName c = displayName).
Proof.
  revert i. induction cols as [|c cols IH]; intros i; simpl.
  - exists 0%nat. split; [lia|]. split; [lia|]. split; [intros; lia|intros; lia].
  - case_bool_decide as Hc.
    + exists 0%nat. split; [lia|]. split; [lia|]. split; [intros; lia|].
      intros _. by exists c.
    + destruct (IH (S i)) as (k & Hk & Hlen & Hbefore & Hat).
      exists (S k). split; [lia|]. split; [lia|]. split.
      * intros [|j] c' Hj Hc'; simpl in Hc'; [congruence|].
        apply (Hbefore j); [lia|done].
      * intros Hlt. apply Hat. lia.
Qed.

(** X1. [getMetadataIndexFor] returns the position of the first column
    with the given display name; when no column has it, it returns the
    length of the array, a position at which the array has no element. *)
Theorem getMetadataIndexFor_first_or_length (displayName : string)
    (cols : list DataViewMetadataColumn) :
  (getMetadataIndexFor displayName cols <= length cols)%nat ∧
  (∀ j c, (j < getMetadataIndexFor displayName cols)%nat ->
          cols !! j = Some c -> col_displayName c <> displayName) ∧
  ((∃ c, c ∈ cols ∧ col_displayName c = displayName) ->
   ∃ c, cols !! getMetadataIndexFor displayName cols = Some c ∧
        col_displayName c = displayName) ∧
  ((∀ c, c ∈ cols -> col_displayName c <> displayName) ->
   getMetadataIndexFor displayName cols = length cols ∧
   cols !! getMetadataIndexFor displayName cols = None).
Proof.
  unfold getMetadataIndexFor.
  destruct (getMetadataIndexFor_from_spec displayName cols 0)
    as (k & -> & Hlen & Hbefore & Hat).
  simpl. split; [done|]. split; [done|]. split.
  - intros (c & Hin & Hname). apply Hat.
    apply list_elem_of_lookup in Hin as (j & Hj).
    destruct (decide (k < length cols)%nat) as [|Hge]; [done|].
    exfalso. apply (Hbefore j c); [|done..].
    apply lookup_lt_Some in Hj. lia.
  - intros Hnone.
    assert (k = length cols) as ->.
    { destruct (decide (k < length cols)%nat) as [Hlt|]; [|lia].
      destruct (Hat Hlt) as (c & Hc & Hname).
      exfalso. apply (Hnone c); [|done]. by eapply list_elem_of_lookup_2. }
    split; [done|]. by apply lookup_ge_None_2.
Qed.

(** What the builder returns when it returns: the empty view model, or
    the view model of an accepted input. *)
Lemma visualTransform_Ok_inv (options : VisualUpdateOptions)
    (vm : IBarChartViewModel) :
  visualTransform host options = Ok vm ->
  vm = emptyViewModel ∨
  ∃ dv category0 vals dataValue ov,
    accepted options dv category0 vals dataValue ∧
    overlapSeries (metadata dv) vals = Ok ov ∧
    vm = {| dataMax := computeDataMax host (val_maxLocal dataValue) ov;
            dataPoints :=
              map (dataPointAt host (contextOf host dv category0 vals dataValue ov))
                (seq 0 (Nat.max (length (cat_values category0))
                                (length (val_values dataValue))));
            settings := Settings (readSettings host (md_objects (metadata dv)));
            widthMax := 0 |}.
Proof.
  intros Hvm.
  destruct (dataViews options) as [dvs|] eqn:Hdvs;
    [|left; unfold visualTransform in Hvm; rewrite Hdvs in Hvm; congruence].
  destruct (dvs !! 0%nat) as [dv|] eqn:Hdv;
    [|left; unfold visualTransform in Hvm; rewrite Hdvs, Hdv in Hvm; congruence].
  destruct (categorical dv) as [cat|] eqn:Hcat;
    [|left; unfold visualTransform in Hvm; rewrite Hdvs, Hdv, Hcat in Hvm; congruence].
  destruct (categories cat) as [cats|] eqn:Hcats;
    [|left; unfold visualTransform in Hvm;
      rewrite Hdvs, Hdv, Hcat, Hcats in Hvm; congruence].
  destruct (cats !! 0%nat) as [category0|] eqn:Hc0;
    [|unfold visualTransform in Hvm;
      rewrite Hdvs, Hdv, Hcat, Hcats, Hc0 in Hvm; discriminate].
  destruct (cat_source category0) as [src|] eqn:Hsrc;
    [|left; unfold visualTransform in Hvm;
      rewrite Hdvs, Hdv, Hcat, Hcats, Hc0 in Hvm; simpl in Hvm;
      rewrite Hsrc in Hvm; congruence].
  destruct (values cat) as [vals|] eqn:Hvals;
    [|left; unfold visualTransform in Hvm;
      rewrite Hdvs, Hdv, Hcat, Hcats, Hc0 in Hvm; simpl in Hvm;
      rewrite Hsrc, Hvals in Hvm; congruence].
  destruct (overlapSeries_Ok (metadata dv) vals) as (ov & Hov).
  destruct (vals !! 0%nat) as [dataValue|] eqn:Hdata.
  - right. exists dv, category0, vals, dataValue, ov.
    assert (accepted options dv category0 vals dataValue) as Hacc.
    { unfold accepted. by exists dvs, cat, cats, src. }
    split; [done|]. split; [done|].
    rewrite (visualTransform_accepted host _ _ _ _ _ _ Hacc Hov) in Hvm. congruence.
  - unfold visualTransform in Hvm.
    rewrite Hdvs, Hdv, Hcat, Hcats, Hc0 in Hvm. simpl in Hvm.
    rewrite Hsrc, Hvals, Hov in Hvm. simpl in Hvm. rewrite Hdata in Hvm. discriminate.
Qed.

Lemma map_seq_lookup {A} (f : nat -> A) (n i : nat) (x : A) :
  map f (seq 0 n) !! i = Some x -> x = f i ∧ (i < n)%nat.
Proof.
  intros Hx. change (map f (seq 0 n)) with (f <$> seq 0 n) in Hx.
  rewrite list_lookup_fmap in Hx.
  destruct (seq 0 n !! i) as [j|] eqn:Hj; [|done].
  apply lookup_seq in Hj as [-> Hlt]. simpl in Hx. split; [congruence|done].
Qed.

(** X2. The builder returns the empty view model exactly when a part
    its gate tests is missing from the input: [dataViews], [dataViews[0]],
    [categorical], [categories], the [source] of [categories[0]], or
    [values].  An empty [values] array beside a first category column with
    a source is not missing: it passes the gate, and the builder raises when
    the row loop reads [dataValue.values]. *)
Theorem visualTransform_empty_model_exactly :
  (∀ options,
     visualTransform host options = Ok emptyViewModel <-> missingPart options) ∧
  (∀ options dvs dv cat cats category0 src,
     dataViews options = Some dvs -> dvs !! 0%nat = Some dv ->
     categorical dv = Some cat -> categories cat = Some cats ->
     cats !! 0%nat = Some category0 -> cat_source category0 = Some src ->
     values cat = Some [] ->
     visualTransform host options = TypeError ∧ ¬ missingPart options).
Proof.
  assert (∀ options,
    visualTransform host options = Ok emptyViewModel -> missingPart options) as Hgate.
  { intros options Hvm. unfold missingPart.
    destruct (dataViews options) as [dvs|] eqn:Hdvs; [right|by left].
    exists dvs. split; [done|].
    destruct (dvs !! 0%nat) as [dv|] eqn:Hdv; [right|by left].
    exists dv. split; [done|].
    destruct (categorical dv) as [cat|] eqn:Hcat; [right|by left].
    exists cat. split; [done|].
    destruct (categories cat) as [cats|] eqn:Hcats; [right|by left].
    unfold visualTransform in Hvm. rewrite Hdvs, Hdv, Hcat, Hcats in Hvm.
    destruct cats as [|category0 cats]; [discriminate Hvm|]. simpl in Hvm.
    exists (category0 :: cats), category0. split; [done|]. split; [done|].
    destruct (cat_source category0) as [src|] eqn:Hsrc; [right|by left].
    destruct (values cat) as [vals|] eqn:Hvals; [exfalso|done].
    destruct (overlapSeries_Ok (metadata dv) vals) as (ov & Hov).
    rewrite Hov in Hvm. simpl in Hvm.
    destruct vals as [|dataValue vals]; simpl in Hvm; [discriminate Hvm|].
    unfold emptyViewModel in Hvm. congruence. }
  split.
  - intros options. split; [apply Hgate|apply visualTransform_rejects_missing].
  - intros options dvs dv cat cats category0 src H1 H2 H3 H4 H5 H6 H7.
    assert (visualTransform host options = TypeError) as Hraise
      by (by eapply visualTransform_empty_values).
    split; [done|]. intros Hmiss.
    apply (visualTransform_rejects_missing host) in Hmiss. congruence.
Qed.

(** X3. Whatever its input, a view model the builder returns holds only
    fresh data points (not selected, no measured width, a blank formatted
    overlap value), has [widthMax] 0, and has the empty settings object only
    when it is the empty view model: no data points and [dataMax] 0. *)
Theorem visualTransform_returns_fresh_rows (options : VisualUpdateOptions)
    (vm : IBarChartViewModel) :
  visualTransform host options = Ok vm ->
  Forall (fun d => selected d = false ∧ width d = None ∧ formattedOverlapValue d = "")
         (dataPoints vm) ∧
  widthMax vm = 0%Q ∧
  (settings vm = EmptySettings ->
   dataPoints vm = [] ∧ dataMax vm = PNumber (Finite 0)).
Proof.
  intros Hvm. apply visualTransform_Ok_inv in Hvm
    as [->|(dv & category0 & vals & dataValue & ov & _ & _ & ->)].
  - by repeat split.
  - simpl. split; [|by split].
    apply Forall_lookup. intros i d Hd.
    apply map_seq_lookup in Hd as [-> _]. done.
Qed.

(** X4. On an accepted input, row [i] carries the selection identity the
    host issues for row [i] of the category column, the overlap value read
    at [i] ([null] on every row when the overlap series is empty), and one
    tooltip entry per value column after the first, in their order and under
    their display names; the overlap column, when there is one, is among
    them. *)
Theorem dataPoints_identity_overlap_tooltip options dv category0 vals dataValue :
  accepted options dv category0 vals dataValue ->
  ∃ vm ov,
    visualTransform host options = Ok vm ∧
    overlapSeries (metadata dv) vals = Ok ov ∧
    ∀ i d, dataPoints vm !! i = Some d ->
      selectionId d = createSelectionId host category0 i ∧
      overlapValue d = match ov with [] => PNull | _ => array_get ov i end ∧
      map te_displayName (tooltip d)
      = map (fun v => col_displayName (val_source v)) (drop 1 vals).
Proof.
  intros Hacc. destruct (overlapSeries_Ok (metadata dv) vals) as (ov & Hov).
  eexists; exists ov. split; [by apply visualTransform_accepted|]. split; [done|].
  simpl. intros i d Hd. apply map_seq_lookup in Hd as [-> _]. simpl.
  split; [done|]. split.
  - by destruct ov.
  - unfold tooltipData. simpl. rewrite map_map. done.
Qed.

(** X5. The tooltip of a row of an accepted input has as many items as
    there are value columns: the category with the formatted primary value
    first, then one item per further value column under its display name;
    none of these further items has an empty text (an empty formatted value
    is shown as "0"). *)
Theorem getTooltipData_items options dv category0 vals dataValue :
  accepted options dv category0 vals dataValue ->
  ∃ vm,
    visualTransform host options = Ok vm ∧
    ∀ i d, dataPoints vm !! i = Some d ->
      length (getTooltipData d) = length vals ∧
      map te_displayName (getTooltipData d)
      = category d :: map (fun v => col_displayName (val_source v)) (drop 1 vals) ∧
      (∃ rest, getTooltipData d
               = {| te_displayName := category d; te_value := formattedValue d |} :: rest ∧
               Forall (fun item => te_value item <> "") rest).
Proof.
  intros Hacc. destruct (overlapSeries_Ok (metadata dv) vals) as (ov & Hov).
  eexists. split; [by apply visualTransform_accepted|].
  simpl. intros i d Hd. apply map_seq_lookup in Hd as [-> _].
  assert (0 < length vals)%nat as Hlen.
  { destruct Hacc as (? & ? & ? & ? & _ & _ & _ & _ & _ & _ & _ & H).
    by apply lookup_lt_Some in H. }
  unfold getTooltipData. split; [|split].
  - simpl. rewrite !length_map. unfold tooltipData. simpl.
    rewrite length_drop. lia.
  - simpl. f_equal. rewrite !map_map. done.
  - eexists. split; [done|]. apply Forall_map. apply Forall_forall.
    intros e _. simpl. by case_bool_decide.
Qed.

Lemma max_loop_NaN (xs : list number) (highest : number) :
  Exists (fun x => isNaN x = true) xs -> max_loop highest xs = NaN.
Proof.
  revert highest. induction xs as [|x xs IH]; intros highest Hex; [by inversion Hex|].
  simpl. destruct (isNaN x) eqn:Hx; [done|].
  apply IH. inversion Hex; [congruence|done].
Qed.

(** X6. When some value of the overlap series is not a number (its
    numeric value is NaN, as for [undefined]), [Math.max] is NaN, the
    comparison fails, and [dataMax] is the declared maximum of the primary
    series, however large the other overlap values are. *)
Theorem dataMax_ignores_overlap_with_NaN options dv category0 vals dataValue ov :
  accepted options dv category0 vals dataValue ->
  overlapSeries (metadata dv) vals = Ok ov ->
  Exists (fun v => isNaN (ToNumber (runtime host) v) = true) ov ->
  ∃ vm, visualTransform host options = Ok vm ∧
        dataMax vm = val_maxLocal dataValue.
Proof.
  intros Hacc Hov Hnan.
  eexists. split; [by apply visualTransform_accepted|]. simpl.
  unfold computeDataMax, Math_max.
  rewrite max_loop_NaN by (by apply Exists_fmap).
  assert (∀ a, le a NaN = false) as Hle by (by intros []).
  assert (value_le (runtime host) (val_maxLocal dataValue) (PNumber NaN) = false) as ->.
  { destruct (val_maxLocal dataValue); apply Hle. }
  done.
Qed.

(** X7. On an accepted input, a row for which the category column holds
    no colour override (the lookup returns the default it is given) gets the
    palette colour of its category text; two such rows with the same
    category text get the same colour. *)
Theorem dataPoints_default_colour options dv category0 vals dataValue :
  accepted options dv category0 vals dataValue ->
  ∃ vm,
    visualTransform host options = Ok vm ∧
    (∀ i d, dataPoints vm !! i = Some d ->
       (∀ defaultColor,
          getCategoricalObjectValue host category0 i "colorSelector" "fill" defaultColor
          = defaultColor) ->
       color d = getColor host (category d)) ∧
    (∀ i j d e, dataPoints vm !! i = Some d -> dataPoints vm !! j = Some e ->
       (∀ defaultColor,
          getCategoricalObjectValue host category0 i "colorSelector" "fill" defaultColor
          = defaultColor) ->
       (∀ defaultColor,
          getCategoricalObjectValue host category0 j "colorSelector" "fill" defaultColor
          = defaultColor) ->
       category d = category e -> color d = color e).
Proof.
  intros Hacc. destruct (overlapSeries_Ok (metadata dv) vals) as (ov & Hov).
  eexists. split; [by apply visualTransform_accepted|]. simpl.
  assert (∀ i d,
    map (dataPointAt host (contextOf host dv category0 vals dataValue ov))
      (seq 0 (Nat.max (length (cat_values category0))
                      (length (val_values dataValue)))) !! i = Some d ->
    (∀ defaultColor,
       getCategoricalObjectValue host category0 i "colorSelector" "fill" defaultColor
       = defaultColor) ->
    color d = getColor host (category d)) as Hone.
  { intros i d Hd Hdefault. apply map_seq_lookup in Hd as [-> _]. simpl.
    by rewrite Hdefault. }
  split; [exact Hone|].
  intros i j d e Hd He Hi Hj Hcat.
  rewrite (Hone i d Hd Hi), (Hone j e He Hj). by rewrite Hcat.
Qed.

End BuilderProperties.

(** ** Further properties of the update pass *)

Section UpdateProperties.

Context {SelectionId : Type} (host : @Host SelectionId).

Local Open Scope list_scope.

Lemma Qgtb_spec (a b : Q) : (Qgtb a b = true ∧ (b < a)%Q) ∨ (Qgtb a b = false ∧ (a <= b)%Q).
Proof.
  destruct (Qgtb a b) eqn:E.
  - left. split; [done|]. by apply Qgtb_true.
  - right. split; [done|]. by apply Qgtb_false.
Qed.

(** X8. Whatever the view model and the viewport height, the drawing
    height [update] settles on is the viewport height or [calcHeight] and is
    never below the viewport height, and the outer padding is the default
    [-0.1] or a positive number. *)
Theorem layout_never_shrinks (viewModel : @IBarChartViewModel SelectionId) (H : Q) :
  (H <= ly_height (layout viewModel H))%Q ∧
  (ly_height (layout viewModel H) = H ∨
   ly_height (layout viewModel H) = ly_calcHeight (layout viewModel H)) ∧
  (ly_outerPadding (layout viewModel H) = (- (0.1))%Q ∨
   (0 < ly_outerPadding (layout viewModel H))%Q).
Proof.
  unfold layout. cbn [ly_height ly_calcHeight ly_outerPadding]. unfold fitRows.
  destruct (Qgtb _ (H / Config.maxHeightScale)).
  - destruct (Qle_bool _ _); cbn [fst snd].
    + split; [lra|]. split; [by left|].
      destruct (Qgtb_spec
        ((H - (- Config.xScalePadding
               + inject_Z (Z.of_nat (length (dataPoints viewModel))))
              * (H / Config.maxHeightScale)) / (2 * (H / Config.maxHeightScale))) 0)
        as [[-> Hp]|[-> _]]; [by right|by left].
    + split; [lra|]. split; [by left|].
      destruct (Qgtb_spec
        ((H - (- Config.xScalePadding
               + inject_Z (Z.of_nat (length (dataPoints viewModel))))
              * resolve_xScaledMin (settings viewModel))
         / (2 * resolve_xScaledMin (settings viewModel))) 0)
        as [[-> Hp]|[-> _]]; [by right|by left].
  - destruct (Qgtb (resolve_xScaledMin _) _); cbn [andb fst snd];
      [|split; [lra|split; by left]].
    match goal with |- context [Qgtb ?a H] => destruct (Qgtb_spec a H) as [[-> Hg]|[-> _]] end;
      cbn [fst snd].
    + split; [lra|]. split; [by right|by left].
    + split; [lra|]. split; by left.
Qed.

(** X9. From three rows on, for a viewport height that is not negative
    and a minimum that is a whole number of at least 13 (the built-in 30, or
    a fixed bar height in its valid range), the step of the category scale
    is at least the minimum, the outer padding is the default [-0.1], and
    the drawing height is grown to [calcHeight] whenever an even
    distribution falls below the minimum and [calcHeight] exceeds the
    viewport height. *)
Theorem layout_keeps_minimum_from_three_rows
    (viewModel : @IBarChartViewModel SelectionId) (H : Q) (m : Z) :
  (0 <= H)%Q -> (3 <= length (dataPoints viewModel))%nat ->
  (ly_xScaledMin (layout viewModel H) == inject_Z m)%Q -> (13 <= m)%Z ->
  (ly_xScaledMin (layout viewModel H) <= D3.step (ly_yScale (layout viewModel H)))%Q ∧
  ly_outerPadding (layout viewModel H) = (- (0.1))%Q ∧
  ((ly_calcX (layout viewModel H) < ly_xScaledMin (layout viewModel H))%Q ->
   (H < ly_calcHeight (layout viewModel H))%Q ->
   ly_height (layout viewModel H) = ly_calcHeight (layout viewModel H)).
Proof.
  intros HH Hn Hmin Hm.
  split; [by apply (layout_three_rows_respects_floor viewModel H m)|].
  assert (ly_calcX (layout viewModel H) <= ly_xScaledMax (layout viewModel H))%Q as Hle.
  { unfold layout. cbn [ly_calcX ly_xScaledMax].
    set (len := inject_Z (Z.of_nat (length (dataPoints viewModel)))).
    assert (3 <= len)%Q as Hlen.
    { unfold len. change 3%Q with (inject_Z 3). rewrite <- Zle_Qle. lia. }
    set (d := (2 * Config.outerPaddingScale - Config.xScalePadding + len)%Q).
    assert (3 <= d)%Q as Hd.
    { unfold d, Config.outerPaddingScale, Config.xScalePadding. lra. }
    assert (d * (H / d) == H)%Q as Hq by (apply Qmult_div_r; lra).
    assert (3 * (H / Config.maxHeightScale) == H)%Q as Hq3.
    { unfold Config.maxHeightScale. apply Qmult_div_r. lra. }
    set (q := (H / d)%Q) in *. set (q3 := (H / Config.maxHeightScale)%Q) in *.
    assert (0 <= q)%Q by nra. nra. }
  split.
  - unfold layout in *. cbn [ly_outerPadding ly_calcX ly_xScaledMax] in *.
    unfold fitRows. apply Qle_bool_iff in Hle. unfold Qgtb at 1. rewrite Hle.
    cbn [negb]. by destruct (_ && _).
  - intros H1 H2. by apply layout_grows_surface.
Qed.

Lemma floor_bounds (x : Q) (k : Z) :
  (inject_Z k <= x)%Q -> (x < inject_Z (k + 1))%Q -> Qfloor x = k.
Proof.
  intros Hlo Hhi.
  pose proof (Qfloor_le x) as H1. pose proof (Qlt_floor x) as H2.
  assert (k <= Qfloor x)%Z.
  { rewrite <- (Qfloor_Z k). by apply Qfloor_resp_le. }
  assert (Qfloor x < k + 1)%Z.
  { rewrite Zlt_Qlt. lra. }
  lia.
Qed.

(** In a band scale with an inner padding between 0 and 1 the step is not
    negative and the band width lies between 0 and the step. *)
Lemma scaleBand_bandwidth_within_step (names : list string)
    (r0 r1 paddingInner paddingOuter : Q) :
  (0 <= paddingInner <= 1)%Q ->
  (0 <= D3.step (D3.scaleBand names r0 r1 paddingInner paddingOuter))%Q ∧
  (0 <= D3.bandwidth (D3.scaleBand names r0 r1 paddingInner paddingOuter))%Q ∧
  (D3.bandwidth (D3.scaleBand names r0 r1 paddingInner paddingOuter)
   <= D3.step (D3.scaleBand names r0 r1 paddingInner paddingOuter))%Q.
Proof.
  intros Hpi. unfold D3.scaleBand. cbn [D3.step D3.bandwidth].
  set (n := inject_Z (Z.of_nat (length (D3.domain_from [] names)))).
  set (start := if negb (Qle_bool r0 r1) then r1 else r0).
  set (stop := if negb (Qle_bool r0 r1) then r0 else r1).
  assert (start <= stop)%Q as Hrange.
  { unfold start, stop. destruct (Qle_bool r0 r1) eqn:E; simpl.
    - by apply Qle_bool_iff.
    - apply Qle_bool_false in E. lra. }
  set (d := D3.max 1 (n - paddingInner + paddingOuter * 2)).
  assert (1 <= d)%Q as Hd by apply max_one.
  assert (0 <= (stop - start) / d)%Q as Hx.
  { apply Qle_shift_div_l; lra. }
  set (x := ((stop - start) / d)%Q) in *.
  assert (0 <= Qfloor x)%Z as Hk.
  { rewrite <- (Qfloor_Z 0). by apply Qfloor_resp_le. }
  unfold D3.floor, D3.round.
  set (k := Qfloor x) in *.
  assert (0 <= inject_Z k)%Q as HkQ.
  { change 0%Q with (inject_Z 0). by rewrite <- Zle_Qle. }
  split; [done|].
  set (y := (inject_Z k * (1 - paddingInner) + (1 # 2))%Q).
  assert (0 <= y)%Q as Hy0 by (unfold y; nra).
  assert (y < inject_Z (k + 1))%Q as Hy1.
  { rewrite inject_Z_plus. unfold y. change (inject_Z 1) with 1%Q. nra. }
  split.
  - change 0%Q with (inject_Z 0). rewrite <- Zle_Qle.
    rewrite <- (Qfloor_Z 0). by apply Qfloor_resp_le.
  - rewrite <- Zle_Qle.
    pose proof (Qfloor_le y) as H1.
    assert (Qfloor y < k + 1)%Z; [|lia].
    rewrite Zlt_Qlt. lra.
Qed.

(** The position the scale finds for a name holds that name. *)
Lemma index_of_Some (name : string) (dom : list string) (i : nat) :
  D3.index_of name dom = Some i -> dom !! i = Some name.
Proof.
  revert i. induction dom as [|x dom IH]; intros i; simpl; [done|].
  case_bool_decide as Hx.
  - intros [= <-]. simpl. by f_equal.
  - destruct (D3.index_of name dom) as [k|]; [|done].
    intros [= <-]. simpl. by apply IH.
Qed.

Lemma index_of_elem (name : string) (dom : list string) :
  name ∈ dom -> is_Some (D3.index_of name dom).
Proof.
  induction dom as [|x dom IH]; simpl; [by intros ?%elem_of_nil|].
  intros [->|Hin]%elem_of_cons.
  - by rewrite bool_decide_true.
  - case_bool_decide; [done|]. destruct (IH Hin) as [k ->]. done.
Qed.

(** Every name given to [.domain] is in the domain, or was there before. *)
Lemma domain_from_elem (seen names : list string) (x : string) :
  x ∈ names -> x ∈ seen ∨ x ∈ D3.domain_from seen names.
Proof.
  revert seen. induction names as [|y names IH]; intros seen; simpl;
    [by intros ?%elem_of_nil|].
  intros [->|Hin]%elem_of_cons.
  - case_bool_decide; [by left|right; left].
  - case_bool_decide as Hy.
    + by apply IH.
    + destruct (IH (y :: seen) Hin) as [[->|Hs]%elem_of_cons|Hd].
      * right. left.
      * by left.
      * right. by right.
Qed.

Lemma bands_lookup (s : D3.BandScale) (reversed : bool) (i : nat) :
  (i < length (D3.domain s))%nat ->
  D3.bands s reversed !! i
  = Some (D3.start s + D3.step s *
            inject_Z (Z.of_nat (if reversed then length (D3.domain s) - S i else i)))%Q.
Proof.
  intros Hi. unfold D3.bands.
  assert (∀ k, (k < length (D3.domain s))%nat ->
    map (fun i : nat => (D3.start s + D3.step s * inject_Z (Z.of_nat i))%Q)
        (seq 0 (length (D3.domain s))) !! k
    = Some (D3.start s + D3.step s * inject_Z (Z.of_nat k))%Q) as Hk.
  { intros k Hlt. change (map ?f ?l) with (f <$> l).
    rewrite list_lookup_fmap, lookup_seq_lt by done. done. }
  destruct reversed; [|by apply Hk].
  rewrite reverse_lookup by (by rewrite length_map, length_seq).
  rewrite length_map, length_seq. apply Hk. lia.
Qed.

Lemma inject_nat_lt (a b : nat) :
  (a < b)%nat -> (inject_Z (Z.of_nat a) + 1 <= inject_Z (Z.of_nat b))%Q.
Proof.
  intros Hlt. change 1%Q with (inject_Z 1).
  rewrite <- inject_Z_plus, <- Zle_Qle. lia.
Qed.

(** In a scale whose band width is at most its step, the bands of two
    different names lie a band width apart. *)
Lemma bands_apart (s : D3.BandScale) (reversed : bool) (x y : string) (px py : Q) :
  (0 <= D3.step s)%Q -> (D3.bandwidth s <= D3.step s)%Q ->
  D3.band_of s reversed x = Some px -> D3.band_of s reversed y = Some py ->
  x <> y ->
  (px + D3.bandwidth s <= py)%Q ∨ (py + D3.bandwidth s <= px)%Q.
Proof.
  intros Hstep Hbw Hx Hy Hne. unfold D3.band_of in Hx, Hy.
  destruct (D3.index_of x (D3.domain s)) as [i|] eqn:Hi; [|done].
  destruct (D3.index_of y (D3.domain s)) as [j|] eqn:Hj; [|done].
  apply index_of_Some in Hi, Hj.
  assert (i <> j) as Hij by (intros ->; congruence).
  apply lookup_lt_Some in Hi, Hj.
  rewrite bands_lookup in Hx, Hy by done.
  injection Hx as <-. injection Hy as <-.
  set (n := length (D3.domain s)) in *.
  set (a := if reversed then (n - S i)%nat else i).
  set (b := if reversed then (n - S j)%nat else j).
  assert (a < b ∨ b < a)%nat as [Hlt|Hlt] by (unfold a, b; destruct reversed; lia).
  - left. apply inject_nat_lt in Hlt. nra.
  - right. apply inject_nat_lt in Hlt. nra.
Qed.

(** X10. In every layout the step of the category scale is not negative
    and the thickness of a bar lies between 0 and the step.  Every row of
    the view model has a band; rows with the same category text are drawn in
    the same band, one bar upon the other; the bars of two rows with
    different category texts do not overlap. *)
Theorem layout_bars_fit_their_slots (viewModel : @IBarChartViewModel SelectionId)
    (H : Q) :
  (0 <= D3.step (ly_yScale (layout viewModel H)))%Q ∧
  (0 <= barThickness viewModel H)%Q ∧
  (barThickness viewModel H <= D3.step (ly_yScale (layout viewModel H)))%Q ∧
  (∀ d, d ∈ dataPoints viewModel -> is_Some (barY viewModel H d)) ∧
  (∀ d e, category d = category e -> barY viewModel H d = barY viewModel H e) ∧
  (∀ d e y y',
     barY viewModel H d = Some y -> barY viewModel H e = Some y' ->
     category d <> category e ->
     (y + barThickness viewModel H <= y')%Q ∨ (y' + barThickness viewModel H <= y)%Q).
Proof.
  assert ((0 <= D3.step (ly_yScale (layout viewModel H)))%Q ∧
          (0 <= barThickness viewModel H)%Q ∧
          (barThickness viewModel H <= D3.step (ly_yScale (layout viewModel H)))%Q)
    as (Hstep & Hbw0 & Hbw).
  { unfold barThickness, layout. cbn [ly_yScale].
    apply scaleBand_bandwidth_within_step.
    assert (D3.paddingInner_of Config.barPadding == 0.15)%Q as -> by reflexivity. lra. }
  do 3 (split; [done|]). split; [|split].
  - intros d Hd. unfold barY, D3.band_of.
    assert (category d ∈ D3.domain (ly_yScale (layout viewModel H))) as Hin.
    { unfold layout. cbn [ly_yScale D3.scaleBand D3.domain].
      destruct (domain_from_elem [] (map category (dataPoints viewModel)) (category d))
        as [Hnil|Hdom]; [|by apply elem_of_nil in Hnil|done].
      change (map ?f ?l) with (f <$> l). by apply list_elem_of_fmap_2. }
    destruct (index_of_elem _ _ Hin) as [i Hi]. rewrite Hi.
    apply index_of_Some, lookup_lt_Some in Hi.
    rewrite bands_lookup by done. done.
  - intros d e Hcat. unfold barY. by rewrite Hcat.
  - intros d e y y' Hy Hy' Hne. unfold barY in Hy, Hy'.
    by apply (bands_apart _ _ _ _ _ _ Hstep Hbw Hy Hy').
Qed.

(** X11. With the empty settings object, as after the builder has
    refused its input, [update] can only settle a font size when a third of
    the band width lies between 8.5 and 40; outside that range the cap reads
    [fontParams.show] of the missing group and raises. *)
Theorem fontSize_raises_without_settings
    (viewModel : @IBarChartViewModel SelectionId) (H : Q) :
  settings viewModel = EmptySettings ->
  ((8.5 <= D3.bandwidth (ly_yScale (layout viewModel H)) / 3 <= 40)%Q ->
   updateFontSize viewModel H
   = Ok (D3.bandwidth (ly_yScale (layout viewModel H)) / Config.fontScaleFactor)%Q) ∧
  ((D3.bandwidth (ly_yScale (layout viewModel H)) / 3 < 8.5)%Q ∨
   (40 < D3.bandwidth (ly_yScale (layout viewModel H)) / 3)%Q ->
   updateFontSize viewModel H = TypeError).
Proof.
  intros Hs. unfold updateFontSize, fontSizeToUse. rewrite Hs. cbn [group].
  change (D3.bandwidth (ly_yScale (layout viewModel H)) / 3)%Q
    with (D3.bandwidth (ly_yScale (layout viewModel H)) / Config.fontScaleFactor)%Q.
  set (x := (D3.bandwidth (ly_yScale (layout viewModel H)) / Config.fontScaleFactor)%Q).
  split.
  - intros [Hlo Hhi].
    destruct (Qgtb_spec 8.5 x) as [[-> Hc]|[-> _]]; [lra|]. simpl.
    destruct (Qgtb_spec x 40) as [[-> Hc]|[-> _]]; [lra|]. done.
  - intros [Hlo|Hhi].
    + destruct (Qgtb_spec 8.5 x) as [[-> _]|[-> Hc]]; [done|lra].
    + destruct (Qgtb_spec 8.5 x) as [[-> _]|[-> _]]; [done|]. simpl.
      destruct (Qgtb_spec x 40) as [[-> _]|[-> Hc]]; [done|lra].
Qed.

(** X12. [syncSelectionState] does nothing when the selection or the
    array of identities is missing, keeps the data bound to every row, and
    forgets what an earlier call did: two calls in a row leave the rows as
    the second call alone does. *)
Theorem syncSelectionState_last_call_wins (bars : list Bar)
    (S1 S2 : list SelectionId) :
  syncSelectionState host (Some bars) None = Some bars ∧
  syncSelectionState host None (Some S1) = None ∧
  syncSelectionState host (syncSelectionState host (Some bars) (Some S1)) (Some S2)
  = syncSelectionState host (Some bars) (Some S2).
Proof.
  split; [done|]. split; [done|].
  unfold syncSelectionState.
  destruct (bool_decide (length S1 = 0%nat)), (bool_decide (length S2 = 0%nat));
    f_equal; rewrite map_map; apply map_ext; intros b; done.
Qed.

(** X13. A row without an identity is never found in a selection, no row
    is found in an empty or missing selection, and a row found in a
    selection is found in every selection that contains it. *)
Theorem isSelectionIdInArray_grows (S S' : list SelectionId)
    (id : option SelectionId) :
  isSelectionIdInArray host (Some S) None = false ∧
  isSelectionIdInArray host None id = false ∧
  isSelectionIdInArray host (Some []) id = false ∧
  ((∀ x, In x S -> In x S') ->
   isSelectionIdInArray host (Some S) id = true ->
   isSelectionIdInArray host (Some S') id = true).
Proof.
  split; [done|]. split; [done|]. split; [by destruct id|].
  intros Hsub. rewrite !isSelectionIdInArray_contained.
  intros (i & cur & Hi & Hin & Hinc). exists i, cur. auto.
Qed.

Lemma not_pane_object (objectName : string) :
  ¬ In objectName paneObjects ->
  String.eqb objectName "fontParams" = false ∧
  String.eqb objectName "generalView" = false ∧
  String.eqb objectName "showBarLabels" = false ∧
  String.eqb objectName "alignBarLabels" = false ∧
  String.eqb objectName "barShape" = false ∧
  String.eqb objectName "barHeight" = false ∧
  String.eqb objectName "experimental" = false ∧
  String.eqb objectName "clearFilters" = false.
Proof.
  intros Hnot. repeat split; apply String.eqb_neq; intros ->; apply Hnot;
    simpl; tauto.
Qed.

(** X14. A request for an object name outside the eight of the format
    pane is answered with an empty enumeration, whatever the state of the
    visual; a request for one of the eight raises while no settings are
    stored (before the first update) and while the stored settings are the
    empty object, which is the case after an update whose data view the
    builder refused. *)
Theorem enumerateObjectInstances_without_settings
    (options : VisualUpdateOptions) (thisSettings : option SettingsObject)
    (objectName : string) :
  (¬ In objectName paneObjects ->
   enumerateObjectInstances thisSettings objectName = Ok []) ∧
  (In objectName paneObjects ->
   enumerateObjectInstances None objectName = TypeError ∧
   enumerateObjectInstances (Some EmptySettings) objectName = TypeError ∧
   (visualTransform host options = Ok emptyViewModel ->
    ∃ vm, visualTransform host options = Ok vm ∧
          enumerateObjectInstances (applySettings vm) objectName = TypeError)).
Proof.
  split.
  - intros Hnot. apply not_pane_object in Hnot
      as (H1 & H2 & H3 & H4 & H5 & H6 & H7 & H8).
    unfold enumerateObjectInstances. by rewrite H1, H2, H3, H4, H5, H6, H7, H8.
  - intros Hin.
    assert (enumerateObjectInstances None objectName = TypeError ∧
            enumerateObjectInstances (Some EmptySettings) objectName = TypeError)
      as [Hnone Hempty].
    { simpl in Hin.
      destruct Hin as [<-|[<-|[<-|[<-|[<-|[<-|[<-|[<-|[]]]]]]]]]; by split. }
    split; [done|]. split; [done|].
    intros Hvm. exists emptyViewModel. split; [done|]. exact Hempty.
Qed.


End UpdateProperties.

(** ** Properties of the tooltip service wrapper *)

Section TooltipProperties.

Context {Data Identity DataItem : Type}.
Variable getTooltipInfoDelegate :
  @ITooltipEventArgs Data -> option (list DataItem).
Variable getDataPointIdentity : @ITooltipEventArgs Data -> option Identity.
Variable reloadTooltipDataOnMouseMove : bool.
Variable usePointerEvents : bool.

Local Open Scope list_scope.

Abbreviation handle' :=
  (handle getTooltipInfoDelegate getDataPointIdentity
     reloadTooltipDataOnMouseMove usePointerEvents).
Abbreviation run' :=
  (run getTooltipInfoDelegate getDataPointIdentity
     reloadTooltipDataOnMouseMove usePointerEvents).

Lemma filter_out_single (t : positive) : filter (fun x => x <> t) [t] = [].
Proof. rewrite filter_cons_False; [done|]. intros H. by apply H. Qed.

Lemma oneTimeout_call (c : @ServiceCall Identity DataItem) (w : Wrapper) :
  oneTimeout w -> oneTimeout (call c w).
Proof. done. Qed.

Lemma oneTimeout_touchEnd (w : @Wrapper Identity DataItem) :
  oneTimeout w ->
  oneTimeout (stateAfter (onTouchEnd w)) ∧
  handleTouchTimeoutId (stateAfter (onTouchEnd w)) = Some (nextTimeout w) ∧
  pendingTimeouts (stateAfter (onTouchEnd w)) = [nextTimeout w].
Proof.
  intros [Hpending Hnext]. unfold oneTimeout. simpl.
  destruct (handleTouchTimeoutId w) as [t|]; simpl; rewrite Hpending.
  - rewrite filter_out_single. simpl. repeat split; try done. intros id [= <-]. lia.
  - simpl. repeat split; try done. intros id [= <-]. lia.
Qed.

Lemma oneTimeout_handle (w : @Wrapper Identity DataItem) (i : @Input Data) :
  oneTimeout w -> oneTimeout (stateAfter (handle' w i)).
Proof.
  intros Hw. destruct i as [e| |e|e| |id]; simpl.
  - unfold onMouseOver. destruct (negb _); [done|].
    destruct (makeTooltipEventArgs _ _ _); [|done].
    destruct (getTooltipInfoDelegate _); [|done]. by apply oneTimeout_call.
  - by apply oneTimeout_call.
  - unfold onMouseMove. destruct (negb _); [done|].
    destruct (makeTooltipEventArgs _ _ _); [|done].
    destruct reloadTooltipDataOnMouseMove; [|by apply oneTimeout_call].
    destruct (getTooltipInfoDelegate _); [|done]. by apply oneTimeout_call.
  - unfold onTouchStart. destruct (makeTooltipEventArgs _ _ _); simpl.
    + by do 2 apply oneTimeout_call.
    + by apply oneTimeout_call.
  - by apply oneTimeout_touchEnd.
  - destruct Hw as [Hpending Hnext]. unfold onTimeout.
    case_bool_decide as Hin; [|done]. unfold oneTimeout. simpl.
    destruct (handleTouchTimeoutId w) as [t|]; rewrite Hpending in *.
    + apply list_elem_of_singleton in Hin as ->.
      rewrite filter_out_single. by split.
    + by apply elem_of_nil in Hin.
Qed.

Lemma oneTimeout_run (inputs : list (@Input Data)) :
  oneTimeout (run' newWrapper inputs).
Proof.
  assert (∀ w, oneTimeout w -> oneTimeout (run' w inputs)) as Hrun.
  { induction inputs as [|i inputs IH]; intros w Hw; simpl; [done|].
    apply IH. by apply oneTimeout_handle. }
  apply Hrun. split; [done|]. intros id Hid. discriminate Hid.
Qed.

(** X16. After any sequence of events and timeouts, starting from a new
    wrapper, at most one timeout is pending, and it is the one the wrapper
    remembers: a touch end clears the timeout of the touch end before it, so
    timeouts never pile up. *)
Theorem wrapper_keeps_one_timeout (inputs : list (@Input Data)) :
  oneTimeout (run' newWrapper inputs) ∧
  (length (pendingTimeouts (run' newWrapper inputs)) <= 1)%nat.
Proof.
  pose proof (oneTimeout_run inputs) as Hone.
  split; [done|]. destruct Hone as [-> _].
  destruct (handleTouchTimeoutId _); simpl; lia.
Qed.

(** X17. After a touch end, in whatever state the wrapper was reached,
    the wrapper remembers a timeout; until it fires, mouse-over and
    mouse-move complete without any call to the tooltip service; no other
    timeout can change the state, and when it fires the wrapper forgets it
    and no timeout is left pending. *)
Theorem touch_end_silences_mouse (inputs : list (@Input Data)) (e : @DomEvent Data) :
  ∃ id,
    handleTouchTimeoutId (stateAfter (handle' (run' newWrapper inputs) TouchEnd))
    = Some id ∧
    handle' (stateAfter (handle' (run' newWrapper inputs) TouchEnd)) (MouseOver e)
    = Completed (stateAfter (handle' (run' newWrapper inputs) TouchEnd)) ∧
    handle' (stateAfter (handle' (run' newWrapper inputs) TouchEnd)) (MouseMove e)
    = Completed (stateAfter (handle' (run' newWrapper inputs) TouchEnd)) ∧
    (∀ id', id' <> id ->
       handle' (stateAfter (handle' (run' newWrapper inputs) TouchEnd)) (Timeout id')
       = Completed (stateAfter (handle' (run' newWrapper inputs) TouchEnd))) ∧
    handleTouchTimeoutId
      (stateAfter (handle' (stateAfter (handle' (run' newWrapper inputs) TouchEnd))
                     (Timeout id))) = None ∧
    pendingTimeouts
      (stateAfter (handle' (stateAfter (handle' (run' newWrapper inputs) TouchEnd))
                     (Timeout id))) = [].
Proof.
  pose proof (oneTimeout_run inputs) as Hone.
  set (w := run' newWrapper inputs) in *.
  destruct (oneTimeout_touchEnd w Hone) as (_ & Hid & Hpending).
  cbn [handle]. set (w1 := stateAfter (onTouchEnd w)) in *.
  exists (nextTimeout w). split; [done|].
  assert (∀ ev : @DomEvent Data, canDisplayTooltip w1 ev = false) as Hcan.
  { intros ev. unfold canDisplayTooltip. rewrite Hid.
    rewrite bool_decide_false by done. apply andb_false_r. }
  split; [unfold onMouseOver; by rewrite Hcan|].
  split; [unfold onMouseMove; by rewrite Hcan|].
  split.
  - intros id' Hne. unfold onTimeout. rewrite Hpending.
    rewrite bool_decide_false; [done|]. by intros ->%list_elem_of_singleton.
  - unfold onTimeout. rewrite Hpending.
    rewrite bool_decide_true by (by apply list_elem_of_singleton).
    simpl. by rewrite filter_out_single.
Qed.

(** X18. A mouse-over leads to a call of the tooltip service exactly
    when no button is pressed, no touch timeout is remembered, the event's
    [sourceEvent] is not [undefined] and the delegate returns tooltip items;
    the call is then one [show], not a touch event, with those items, the
    pointer coordinates relative to the root and at most one identity.  When
    display is allowed but [sourceEvent] is [undefined], as on a plain DOM
    event, reading the coordinates raises and nothing is shown. *)
Theorem mouse_over_shows_or_raises (w : @Wrapper Identity DataItem)
    (e : @DomEvent Data) :
  let allowed :=
    match ev_buttons e with Some b => N.eqb b 0 | None => true end
    && bool_decide (handleTouchTimeoutId w = None) in
  let args := {| tea_data := ev_data e;
                 tea_coordinates := Some (ev_pointerRoot e);
                 tea_elementCoordinates := Some (ev_pointerTarget e);
                 tea_isTouchEvent := false |} in
  (allowed = false -> handle' w (MouseOver e) = Completed w) ∧
  (allowed = true -> ev_hasSourceEvent e = false ->
   handle' w (MouseOver e) = Threw w) ∧
  (allowed = true -> ev_hasSourceEvent e = true ->
   handle' w (MouseOver e)
   = match getTooltipInfoDelegate args with
     | None => Completed w
     | Some items =>
         Completed
           (call (Show {| to_coordinates := Some (ev_pointerRoot e);
                          to_dataItems := Some items;
                          to_identities := identitiesOf (getDataPointIdentity args);
                          to_isTouchEvent := false |}) w)
     end) ∧
  (calls (stateAfter (handle' w (MouseOver e))) <> calls w ->
   allowed = true ∧ ev_hasSourceEvent e = true ∧
   is_Some (getTooltipInfoDelegate args)).
Proof.
  intros allowed args.
  assert (canDisplayTooltip w e = allowed) as Hcan.
  { unfold canDisplayTooltip, allowed. destruct (ev_buttons e); [|done].
    by rewrite negb_involutive. }
  cbn [handle]. unfold onMouseOver. rewrite Hcan.
  unfold makeTooltipEventArgs, getCoordinates. fold args.
  destruct allowed, (ev_hasSourceEvent e); simpl; fold args;
    repeat split; try done.
  destruct (getTooltipInfoDelegate args); [by eexists|done].
Qed.

(** X19. A touch start always hides the tooltip at once, whatever the
    buttons and the remembered timeout, and leaves the timeouts alone.  It
    then shows the tooltip as a touch event, with whatever the delegate
    returns, except when the window has pointer events and the event's
    [sourceEvent] is [undefined]: then it raises after the hide and shows
    nothing.  Without pointer events the coordinates are those of the first
    touch, or undefined when there is none. *)
Theorem touch_start_hides_then_shows (w : @Wrapper Identity DataItem)
    (e : @DomEvent Data) :
  (usePointerEvents = true -> ev_hasSourceEvent e = false ->
   handle' w (TouchStart e) = Threw (call (Hide true true) w)) ∧
  (usePointerEvents = false ∨ ev_hasSourceEvent e = true ->
   ∃ o, handle' w (TouchStart e)
        = Completed (call (Show o) (call (Hide true true) w)) ∧
        to_isTouchEvent o = true ∧
        to_coordinates o
        = (if usePointerEvents then Some (ev_pointerRoot e)
           else ev_touchesRoot e !! 0%nat) ∧
        (length (to_identities o) <= 1)%nat) ∧
  (∃ rest, calls (stateAfter (handle' w (TouchStart e)))
           = calls w ++ Hide true true :: rest) ∧
  handleTouchTimeoutId (stateAfter (handle' w (TouchStart e)))
  = handleTouchTimeoutId w ∧
  pendingTimeouts (stateAfter (handle' w (TouchStart e))) = pendingTimeouts w.
Proof.
  cbn [handle]. unfold onTouchStart, makeTooltipEventArgs, getCoordinates.
  split; [by intros -> ->|]. split.
  - intros Hok.
    destruct usePointerEvents;
      [destruct (ev_hasSourceEvent e); [|by destruct Hok]|];
      simpl; (eexists; split; [done|]; split; [done|]; split; [done|]);
      simpl; destruct (getDataPointIdentity _); simpl; lia.
  - destruct usePointerEvents; [destruct (ev_hasSourceEvent e)|]; simpl;
      (split; [|done]); eexists; rewrite <- ?app_assoc; simpl; done.
Qed.

End TooltipProperties.

(** ** The wrapper in the visual *)

Section VisualTooltip.

Context {SelectionId : Type}.

Local Open Scope list_scope.

(** X21. In the visual, with no button pressed, no touch timeout
    remembered and an event that has a [sourceEvent], a mouse-over on a row
    shows the tooltip items of that row under the row's identity, and a
    mouse-move moves the tooltip under that identity without any items:
    moving the pointer never reloads them. *)
Theorem visual_tooltip_on_mouse (usePointerEvents : bool)
    (w : @Wrapper SelectionId TooltipEntry) (e : @DomEvent IBarChartDataPoint) :
  match ev_buttons e with Some b => N.eqb b 0 | None => true end = true ->
  handleTouchTimeoutId w = None ->
  ev_hasSourceEvent e = true ->
  visualHandle usePointerEvents w (MouseOver e)
  = Completed
      (call (Show {| to_coordinates := Some (ev_pointerRoot e);
                     to_dataItems := Some (getTooltipData (ev_data e));
                     to_identities := identitiesOf (selectionId (ev_data e));
                     to_isTouchEvent := false |}) w) ∧
  visualHandle usePointerEvents w (MouseMove e)
  = Completed
      (call (Move {| to_coordinates := Some (ev_pointerRoot e);
                     to_dataItems := None;
                     to_identities := identitiesOf (selectionId (ev_data e));
                     to_isTouchEvent := false |}) w).
Proof.
  intros Hbuttons Hid Hsource.
  assert (canDisplayTooltip w e = true) as Hcan.
  { unfold canDisplayTooltip. rewrite Hid.
    destruct (ev_buttons e); [|done]. by rewrite negb_involutive, Hbuttons. }
  unfold visualHandle. cbn [handle].
  unfold onMouseOver, onMouseMove, makeTooltipEventArgs, getCoordinates.
  rewrite Hcan, Hsource. done.
Qed.

End VisualTooltip.

(** ** The further properties at sample inputs *)

Lemma getMetadataIndexFor_first_or_length_witness :
  (∃ c, [categoryColumn; measureColumn; overlapColumn]
          !! getMetadataIndexFor "Value" [categoryColumn; measureColumn; overlapColumn]
        = Some c ∧ col_displayName c = "Value") ∧
  getMetadataIndexFor "Missing" [categoryColumn; measureColumn; overlapColumn] = 3%nat.
Proof.
  destruct (getMetadataIndexFor_first_or_length "Value"
              [categoryColumn; measureColumn; overlapColumn]) as (_ & _ & Hfound & _).
  destruct (getMetadataIndexFor_first_or_length "Missing"
              [categoryColumn; measureColumn; overlapColumn]) as (_ & _ & _ & Hnone).
  split.
  - apply Hfound. exists measureColumn. split; [|reflexivity].
    apply list_elem_of_further, list_elem_of_here.
  - apply Hnone. intros c Hc.
    apply elem_of_cons in Hc as [->|Hc]; [discriminate|].
    apply elem_of_cons in Hc as [->|Hc]; [discriminate|].
    apply elem_of_cons in Hc as [->|Hc]; [discriminate|].
    by apply elem_of_nil in Hc.
Defined.

Lemma visualTransform_empty_model_exactly_witness :
  visualTransform plainHost noDataViews = Ok emptyViewModel ∧
  visualTransform plainHost noValueColumn = TypeError ∧
  ¬ missingPart noValueColumn.
Proof.
  destruct (visualTransform_empty_model_exactly plainHost) as [Hgate Hvalues].
  split.
  - apply (proj2 (Hgate noDataViews)). left. reflexivity.
  - eapply (Hvalues noValueColumn); reflexivity.
Defined.

Lemma visualTransform_returns_fresh_rows_witness :
  Forall (fun d => selected d = false ∧ width d = None ∧ formattedOverlapValue d = "")
         (dataPoints (modelOf threeRows)) ∧
  widthMax (modelOf threeRows) = 0%Q ∧
  (settings (modelOf threeRows) = EmptySettings ->
   dataPoints (modelOf threeRows) = [] ∧
   dataMax (modelOf threeRows) = PNumber (Finite 0)).
Proof.
  apply (visualTransform_returns_fresh_rows plainHost threeRows (modelOf threeRows)).
  reflexivity.
Defined.

Lemma dataPoints_identity_overlap_tooltip_witness :
  ∃ vm ov,
    visualTransform plainHost threeRows = Ok vm ∧
    overlapSeries
      (metadata (sampleDataView [PString "A"; PString "B"; PString "C"]
                   [num 10; num 20; num 30] (num 30) (Some [num 5; num 25; num 15])))
      (sampleSeries [num 10; num 20; num 30] (num 30) (Some [num 5; num 25; num 15]))
    = Ok ov ∧
    ∀ i d, dataPoints vm !! i = Some d ->
      selectionId d = Some i ∧
      overlapValue d = match ov with [] => PNull | _ => array_get ov i end ∧
      map te_displayName (tooltip d) = ["Overlap"].
Proof.
  apply (dataPoints_identity_overlap_tooltip plainHost threeRows
           (sampleDataView [PString "A"; PString "B"; PString "C"]
              [num 10; num 20; num 30] (num 30) (Some [num 5; num 25; num 15]))
           (sampleCategory [PString "A"; PString "B"; PString "C"])
           (sampleSeries [num 10; num 20; num 30] (num 30)
              (Some [num 5; num 25; num 15]))
           (primarySeries [num 10; num 20; num 30] (num 30))).
  accept_sample.
Defined.

Lemma getTooltipData_items_witness :
  ∃ vm,
    visualTransform plainHost threeRows = Ok vm ∧
    ∀ i d, dataPoints vm !! i = Some d ->
      length (getTooltipData d) = 2%nat ∧
      map te_displayName (getTooltipData d) = [category d; "Overlap"] ∧
      (∃ rest, getTooltipData d
               = {| te_displayName := category d; te_value := formattedValue d |} :: rest ∧
               Forall (fun item => te_value item <> "") rest).
Proof.
  apply (getTooltipData_items plainHost threeRows
           (sampleDataView [PString "A"; PString "B"; PString "C"]
              [num 10; num 20; num 30] (num 30) (Some [num 5; num 25; num 15]))
           (sampleCategory [PString "A"; PString "B"; PString "C"])
           (sampleSeries [num 10; num 20; num 30] (num 30)
              (Some [num 5; num 25; num 15]))
           (primarySeries [num 10; num 20; num 30] (num 30))).
  accept_sample.
Defined.

Lemma dataMax_ignores_overlap_with_NaN_witness :
  ∃ vm, visualTransform plainHost holedOverlap = Ok vm ∧ dataMax vm = num 30.
Proof.
  apply (dataMax_ignores_overlap_with_NaN plainHost holedOverlap
           (sampleDataView [PString "A"; PString "B"] [num 10; num 30] (num 30)
              (Some [num 50; PUndefined]))
           (sampleCategory [PString "A"; PString "B"])
           (sampleSeries [num 10; num 30] (num 30) (Some [num 50; PUndefined]))
           (primarySeries [num 10; num 30] (num 30))
           [num 50; PUndefined]).
  - accept_sample.
  - reflexivity.
  - right. left. reflexivity.
Defined.

Lemma dataPoints_default_colour_witness :
  ∃ vm,
    visualTransform plainHost sameCategory = Ok vm ∧
    ∀ d e, dataPoints vm !! 0%nat = Some d -> dataPoints vm !! 1%nat = Some e ->
           category d = category e -> color d = color e.
Proof.
  destruct (dataPoints_default_colour plainHost sameCategory
              (sampleDataView [PString "A"; PString "A"] [num 10; num 20] (num 20) None)
              (sampleCategory [PString "A"; PString "A"])
              (sampleSeries [num 10; num 20] (num 20) None)
              (primarySeries [num 10; num 20] (num 20)))
    as (vm & Hvm & _ & Hsame).
  { accept_sample. }
  exists vm. split; [exact Hvm|].
  intros d e Hd He. apply (Hsame 0%nat 1%nat d e Hd He); reflexivity.
Defined.

Lemma layout_keeps_minimum_from_three_rows_witness :
  (ly_xScaledMin (layout (modelOf threeRows) 300)
   <= D3.step (ly_yScale (layout (modelOf threeRows) 300)))%Q ∧
  ly_outerPadding (layout (modelOf threeRows) 300) = (- (0.1))%Q.
Proof.
  destruct (layout_keeps_minimum_from_three_rows (modelOf threeRows) 300 30)
    as (Hstep & Hpadding & _).
  - discriminate.
  - vm_compute. lia.
  - reflexivity.
  - lia.
  - split; [exact Hstep|exact Hpadding].
Defined.

Lemma layout_bars_fit_their_slots_witness :
  (∃ y y',
     barY (modelOf threeRows) 300 firstRow = Some y ∧
     barY (modelOf threeRows) 300 secondRow = Some y' ∧
     ((y + barThickness (modelOf threeRows) 300 <= y')%Q ∨
      (y' + barThickness (modelOf threeRows) 300 <= y)%Q)) ∧
  (∃ d e,
     dataPoints (modelOf sameCategory) !! 0%nat = Some d ∧
     dataPoints (modelOf sameCategory) !! 1%nat = Some e ∧
     value d <> value e ∧
     barY (modelOf sameCategory) 300 d = barY (modelOf sameCategory) 300 e).
Proof.
  split.
  - destruct (layout_bars_fit_their_slots (modelOf threeRows) 300)
      as (_ & _ & _ & Hband & _ & Hapart).
    destruct (Hband firstRow) as [y Hy].
    { apply (list_elem_of_lookup_2 _ 0%nat). reflexivity. }
    destruct (Hband secondRow) as [y' Hy'].
    { apply (list_elem_of_lookup_2 _ 1%nat). reflexivity. }
    exists y, y'. split; [exact Hy|]. split; [exact Hy'|].
    apply (Hapart _ _ _ _ Hy Hy'). discriminate.
  - destruct (layout_bars_fit_their_slots (modelOf sameCategory) 300)
      as (_ & _ & _ & _ & Hsame & _).
    do 2 eexists. split; [reflexivity|]. split; [reflexivity|].
    split; [discriminate|]. apply Hsame. reflexivity.
Defined.

Lemma fontSize_raises_without_settings_witness :
  updateFontSize (@emptyViewModel nat) 20 = TypeError.
Proof.
  destruct (fontSize_raises_without_settings (@emptyViewModel nat) 20 eq_refl)
    as [_ Hraise].
  apply Hraise. left. reflexivity.
Defined.

Lemma isSelectionIdInArray_grows_witness :
  isSelectionIdInArray plainHost (Some [0%nat; 1%nat]) (Some 1%nat) = true.
Proof.
  destruct (isSelectionIdInArray_grows plainHost [1%nat] [0%nat; 1%nat] (Some 1%nat))
    as (_ & _ & _ & Hgrow).
  apply Hgrow.
  - intros x Hx. right. exact Hx.
  - reflexivity.
Defined.

Lemma enumerateObjectInstances_without_settings_witness :
  enumerateObjectInstances (Some (Settings defaultSettings)) "units" = Ok [] ∧
  ∃ vm, visualTransform plainHost noDataViews = Ok vm ∧
        enumerateObjectInstances (@applySettings nat vm) "fontParams" = TypeError.
Proof.
  split.
  - apply (enumerateObjectInstances_without_settings plainHost noDataViews
             (Some (Settings defaultSettings)) "units").
    simpl. intros H. repeat (destruct H as [H|H]; [discriminate H|]). exact H.
  - apply (enumerateObjectInstances_without_settings plainHost noDataViews None
             "fontParams").
    + simpl. tauto.
    + reflexivity.
Defined.


Lemma touch_end_silences_mouse_witness :
  ∃ id,
    handleTouchTimeoutId
      (stateAfter (handle echoInfo echoIdentity false true
                     (run echoInfo echoIdentity false true newWrapper [TouchEnd])
                     TouchEnd)) = Some id ∧
    handle echoInfo echoIdentity false true
      (stateAfter (handle echoInfo echoIdentity false true
                     (run echoInfo echoIdentity false true newWrapper [TouchEnd])
                     TouchEnd))
      (MouseOver (eventOver 7%nat (Some 0%N) true))
    = Completed
        (stateAfter (handle echoInfo echoIdentity false true
                       (run echoInfo echoIdentity false true newWrapper [TouchEnd])
                       TouchEnd)).
Proof.
  destruct (touch_end_silences_mouse echoInfo echoIdentity false true [TouchEnd]
              (eventOver 7%nat (Some 0%N) true)) as (id & Hid & Hover & _).
  exists id. split; [exact Hid|exact Hover].
Defined.

Lemma mouse_over_shows_or_raises_witness :
  handle echoInfo echoIdentity false true newWrapper
    (MouseOver (eventOver 7%nat (Some 0%N) false))
  = Threw newWrapper.
Proof.
  destruct (mouse_over_shows_or_raises echoInfo echoIdentity false true newWrapper
              (eventOver 7%nat (Some 0%N) false)) as (_ & Hraise & _).
  apply Hraise; reflexivity.
Defined.

Lemma touch_start_hides_then_shows_witness :
  handle echoInfo echoIdentity false true newWrapper
    (TouchStart (eventOver 7%nat None false))
  = Threw (call (Hide true true) newWrapper).
Proof.
  destruct (touch_start_hides_then_shows echoInfo echoIdentity false true newWrapper
              (eventOver 7%nat None false)) as (Hraise & _).
  apply Hraise; reflexivity.
Defined.

Lemma visual_tooltip_on_mouse_witness :
  visualHandle true newWrapper (MouseMove (eventOver firstRow (Some 0%N) true))
  = Completed
      (call (Move {| to_coordinates := Some [10%Q; 20%Q];
                     to_dataItems := None;
                     to_identities := [0%nat];
                     to_isTouchEvent := false |}) newWrapper).
Proof.
  destruct (visual_tooltip_on_mouse true newWrapper
              (eventOver firstRow (Some 0%N) true))
    as [_ Hmove]; [reflexivity..|].
  exact Hmove.
Defined.
